(** * vdp_scanner: the domain-check protocol and the agency tallies

    A shallow embedding of [src/vdp_scanner.py]: the fallback chain of
    [VdpScanner.check_for_vdp] over an arbitrary [UrlHasher], and the
    bookkeeping of [VdpScanner.add_domain_result].

    Python exceptions are carried by a state-and-error monad, so that
    "does not raise" is a statement about the value a method returns. *)

From Stdlib Require Import ZArith Ascii String List Lia.
From stdpp Require Import base option strings list gmap fin_maps pretty sorting.

Local Open Scope Z_scope.
Local Open Scope string_scope.
Local Open Scope list_scope.

(** ** Exceptions

    The classes of [requests.exceptions] that the handlers of
    [check_for_vdp] name, with their inheritance: [SSLError], [ProxyError]
    and [ConnectTimeout] derive from [ConnectionError]; [ConnectTimeout]
    and [ReadTimeout] derive from [Timeout]. Every other subclass of
    [Exception] is [OtherException], tagged with its class name. Signals
    that are not [Exception]s (KeyboardInterrupt, SystemExit) are not
    failures of a fetch and are outside the model. *)

Inductive exn_class : Type :=
  | SSLError
  | ProxyError
  | ConnectionError
  | ConnectTimeout
  | ReadTimeout
  | Timeout
  | OtherException (name : string).

Record exn : Type := Raise { exn_type : exn_class; exn_str : string }.

Definition class_name (c : exn_class) : string :=
  match c with
  | SSLError => "SSLError"
  | ProxyError => "ProxyError"
  | ConnectionError => "ConnectionError"
  | ConnectTimeout => "ConnectTimeout"
  | ReadTimeout => "ReadTimeout"
  | Timeout => "Timeout"
  | OtherException name => name
  end.

(** [isinstance(err, requests.exceptions.SSLError)] *)
Definition is_SSLError (e : exn) : bool :=
  match exn_type e with SSLError => true | _ => false end.

(** [isinstance(err, requests.exceptions.ConnectionError)] *)
Definition is_ConnectionError (e : exn) : bool :=
  match exn_type e with
  | SSLError | ProxyError | ConnectionError | ConnectTimeout => true
  | _ => false
  end.

(** [isinstance(err, requests.exceptions.Timeout)] *)
Definition is_Timeout (e : exn) : bool :=
  match exn_type e with
  | ConnectTimeout | ReadTimeout | Timeout => true
  | _ => false
  end.

(** [isinstance(err, Exception)] *)
Definition is_Exception (e : exn) : bool := true.

(** ** Values of the external libraries *)

(** [hash_http_content.UrlResult], a named tuple; of its fields
    [check_for_vdp] reads the four below. A named tuple with fields is a
    non-empty tuple, hence truthy: [not result] holds only of [None]. *)
Module UrlResult.
Record t : Type := Make {
  status : Z;
  visited_url : string;
  is_redirect : bool;
  hash : string
}.
End UrlResult.

(** [urllib.parse.ParseResult], the six-field named tuple. *)
Module ParseResult.
Record t : Type := Make {
  scheme : string;
  netloc : string;
  path : string;
  params : string;
  query : string;
  fragment : string
}.

(** [url._replace(scheme=s)] *)
Definition replace_scheme (s : string) (u : t) : t :=
  Make s (netloc u) (path u) (params u) (query u) (fragment u).
End ParseResult.

Definition truthy (s : string) : bool :=
  match s with EmptyString => false | String _ _ => true end.

(** [urllib.parse.urlunparse], through [urlunsplit]. Both schemes used
    here, http and https, belong to [uses_netloc]. *)
Definition uses_netloc (s : string) : bool :=
  bool_decide (s = "http") || bool_decide (s = "https").

Definition urlunparse (u : ParseResult.t) : string :=
  let scheme := ParseResult.scheme u in
  let netloc := ParseResult.netloc u in
  let url := ParseResult.path u in
  let url := if truthy (ParseResult.params u)
             then url +:+ ";" +:+ ParseResult.params u else url in
  let url :=
    if truthy netloc
       || (truthy scheme && uses_netloc scheme
           && negb (bool_decide (String.substring 0 2 url = "//")))
    then
      let url := if truthy url && negb (bool_decide (String.substring 0 1 url = "/"))
                 then "/" +:+ url else url in
      "//" +:+ netloc +:+ url
    else url in
  let url := if truthy scheme then scheme +:+ ":" +:+ url else url in
  let url := if truthy (ParseResult.query u)
             then url +:+ "?" +:+ ParseResult.query u else url in
  if truthy (ParseResult.fragment u)
  then url +:+ "#" +:+ ParseResult.fragment u else url.

(** *** [urllib.parse.urlparse]

    The parse is the library's. [check_for_vdp] below takes it as it
    comes, for every parse function, one that raises included; the
    theorems on the chain are proved at that generality. What follows is
    the parse as CPython has it ([urlsplit], then the split of the
    parameters), to run the scenarios: tabs and line ends are removed; a
    leading run of scheme characters closed by a colon is the scheme; after
    "//" the network location runs to the next "/", "?" or "#"; a bracket
    without its partner there raises [ValueError]; then the fragment, the
    query and the parameters of the last path segment are split off. Two
    further checks of the library, which can only raise [ValueError] on
    more inputs, are left out: the validation of a host in brackets and
    the normal form of a network location that is not ASCII. *)

Definition is_unsafe (c : ascii) : bool :=
  Ascii.eqb c "009" || Ascii.eqb c "010" || Ascii.eqb c "013".

Fixpoint remove_unsafe (s : string) : string :=
  match s with
  | EmptyString => EmptyString
  | String c s' => if is_unsafe c then remove_unsafe s' else String c (remove_unsafe s')
  end.

Definition is_upper (c : ascii) : bool :=
  (65 <=? nat_of_ascii c)%nat && (nat_of_ascii c <=? 90)%nat.

Definition is_alpha (c : ascii) : bool :=
  is_upper c || ((97 <=? nat_of_ascii c)%nat && (nat_of_ascii c <=? 122)%nat).

Definition is_scheme_char (c : ascii) : bool :=
  is_alpha c
  || ((48 <=? nat_of_ascii c)%nat && (nat_of_ascii c <=? 57)%nat)
  || Ascii.eqb c "+" || Ascii.eqb c "-" || Ascii.eqb c ".".

Definition to_lower (c : ascii) : ascii :=
  if is_upper c then ascii_of_nat (nat_of_ascii c + 32) else c.

Fixpoint string_forallb (p : ascii → bool) (s : string) : bool :=
  match s with
  | EmptyString => true
  | String c s' => p c && string_forallb p s'
  end.

Fixpoint string_map (f : ascii → ascii) (s : string) : string :=
  match s with
  | EmptyString => EmptyString
  | String c s' => String (f c) (string_map f s')
  end.

(** The text before the first character that meets [stop], and the text
    from that character on. *)
Fixpoint break_at (stop : ascii → bool) (s : string) : string * string :=
  match s with
  | EmptyString => (EmptyString, EmptyString)
  | String c s' =>
      if stop c then (EmptyString, s)
      else let '(before, rest) := break_at stop s' in (String c before, rest)
  end.

(** [url.split(c, 1)] when [c in url], else [url] and the empty string. *)
Definition split_once (c : ascii) (url : string) : string * string :=
  match break_at (Ascii.eqb c) url with
  | (before, String _ after) => (before, after)
  | (before, EmptyString) => (before, EmptyString)
  end.

(** The scheme and what follows its colon; no scheme when the text
    before the first colon is empty, does not start with a letter or has
    a character no scheme has. *)
Definition split_scheme (url : string) : string * string :=
  match break_at (Ascii.eqb ":") url with
  | (String c pre, String _ rest) =>
      if is_alpha c && string_forallb is_scheme_char (String c pre)
      then (string_map to_lower (String c pre), rest)
      else (EmptyString, url)
  | _ => (EmptyString, url)
  end.

Definition is_netloc_end (c : ascii) : bool :=
  Ascii.eqb c "/" || Ascii.eqb c "?" || Ascii.eqb c "#".

Fixpoint string_existsb (p : ascii → bool) (s : string) : bool :=
  match s with
  | EmptyString => false
  | String c s' => p c || string_existsb p s'
  end.

(** [_splitparams]: the first ";" of the last path segment parts the
    path from the parameters. The third component tells whether the text
    has a "/". *)
Fixpoint splitparams (url : string) : string * string * bool :=
  match url with
  | EmptyString => (EmptyString, EmptyString, false)
  | String c url' =>
      let '(path, params, slash) := splitparams url' in
      if slash then (String c path, params, true)
      else if Ascii.eqb c "/" then (String c path, params, true)
      else if Ascii.eqb c ";" then (EmptyString, url', false)
      else (String c path, params, false)
  end.

Definition uses_params (s : string) : bool :=
  bool_decide (s ∈ [""; "ftp"; "hdl"; "prospero"; "http"; "imap"; "https"; "shttp";
                    "rtsp"; "rtspu"; "sip"; "sips"; "mms"; "sftp"; "tel"]).

Definition urllib_urlparse (url : string) : exn + ParseResult.t :=
  let url := remove_unsafe url in
  let '(scheme, url) := split_scheme url in
  let '(netloc, url) :=
    match url with
    | String "/" (String "/" rest) => break_at is_netloc_end rest
    | _ => (EmptyString, url)
    end in
  if xorb (string_existsb (Ascii.eqb "[") netloc)
          (string_existsb (Ascii.eqb "]") netloc)
  then inl (Raise (OtherException "ValueError") "Invalid IPv6 URL")
  else
    let '(url, fragment) := split_once "#" url in
    let '(url, query) := split_once "?" url in
    let '(url, params) :=
      if uses_params scheme && string_existsb (Ascii.eqb ";") url
      then let '(path, params, _) := splitparams url in (path, params)
      else (url, EmptyString) in
    inr (ParseResult.Make scheme netloc url params query fragment).

(** ** Logging *)

Inductive log_level : Type := DEBUG | INFO | WARNING.

Record LogRecord : Type := Log { levelname : log_level; message : string }.

Definition is_warning (r : LogRecord) : bool :=
  match levelname r with WARNING => true | _ => false end.

(** ** The tables of the scanner *)

Inductive pyval : Type :=
  | PyStr (s : string)
  | PyBool (b : bool).

Module DomainResult.
Record t : Type := Make {
  domain : string;
  agency : string;
  organization : string;
  security_contact : string;
  visited_url : string;
  is_redirect : bool;
  vdp_present : bool;
  vdp_hash : string
}.

(** The named tuple as the sequence [zip] iterates over. *)
Definition fields (r : t) : list pyval :=
  [PyStr (domain r); PyStr (agency r); PyStr (organization r);
   PyStr (security_contact r); PyStr (visited_url r);
   PyBool (is_redirect r); PyBool (vdp_present r); PyStr (vdp_hash r)].
End DomainResult.

Definition MISSING_SECURITY_CONTACT : string := "(blank)".

Definition agency_csv_header : list string :=
  ["Agency";
   "Total Domains";
   "Domains with Security Contact Listed";
   "Domains with Organization Listed";
   "Domains with Matching Organization and Agency";
   "Domains with Published VDP"].

Definition domain_csv_header : list string :=
  ["Domain";
   "Agency";
   "Organization";
   "Security Contact Email";
   "Visited URL";
   "Was it Redirected";
   "VDP is Published";
   "VDP Hash"].

(** The return value of [check_for_vdp]:
    [(visited_url, is_redirect, vdp_present, vdp_hash)]. *)
Definition CheckOutcome : Type := (string * bool * bool * string)%type.

(** One call of [hash_url], as the checker saw it: the URL, the [verify]
    flag and what came back. *)
Record Fetch : Type := Fetched {
  fetch_url : string;
  fetch_verify : bool;
  fetch_response : exn + UrlResult.t
}.

Section Scanner.

(** The hasher is any object with a [hash_url] method: its answers may
    depend on the URL, on [verify] and on its own history. *)
Variable Hasher : Type.
Variable hash_url : string → bool → Hasher → (exn + UrlResult.t) * Hasher.

(** [urllib.parse.urlparse]: a named tuple, or an exception. *)
Variable urlparse : string → exn + ParseResult.t.

(** The instance state of a [VdpScanner], the records handed to
    [logging], and the calls made on the hasher. *)
Record World : Type := MkWorld {
  _hasher : Hasher;
  agency_results : gmap string (gmap string Z);
  domain_results : list (list (string * pyval));
  logged : list LogRecord;
  fetches : list Fetch
}.

Definition M (A : Type) : Type := World → (exn + A) * World.

#[local] Instance M_ret : MRet M := λ A a w, (inr a, w).

#[local] Instance M_throw : MThrow exn M := λ A e w, (inl e, w).

#[local] Instance M_bind : MBind M := λ A B k m w,
  match m w with
  | (inl e, w') => (inl e, w')
  | (inr a, w') => k a w'
  end.

(** [try: body / except ...: ...]. [handler err] is [None] when no
    [except] clause matches [err], which then propagates. *)
Definition try_except {A} (body : M A) (handler : exn → option (M A)) : M A :=
  λ w, match body w with
       | (inl e, w') =>
           match handler e with
           | Some h => h w'
           | None => (inl e, w')
           end
       | (inr a, w') => (inr a, w')
       end.

(** [logging.warning(...)], [logging.debug(...)] *)
Definition logging (level : log_level) (msg : string) : M () :=
  λ w, (inr (),
        MkWorld (_hasher w) (agency_results w) (domain_results w)
                (logged w ++ [Log level msg]) (fetches w)).

(** [self._hasher.hash_url(url, verify=verify)] *)
Definition self_hasher_hash_url (url : string) (verify : bool) : M UrlResult.t :=
  λ w, let '(response, h) := hash_url url verify (_hasher w) in
       (response,
        MkWorld h (agency_results w) (domain_results w) (logged w)
                (fetches w ++ [Fetched url verify response])).

Definition _log_vdp_failure (domain : string) (err : exn) : M () :=
  logging WARNING ("Unable to retrieve hash for '" +:+ domain +:+ "'");;
  logging DEBUG ("Caught " +:+ class_name (exn_type err));;
  logging DEBUG (exn_str err).

(** A value or an exception of a library function that does not touch
    the world. *)
Definition lift {A} (x : exn + A) : M A := λ w, (x, w).

(** The parse of the URL comes before the first [try]: what it raises
    leaves [check_for_vdp] as it is. The local [result] starts as
    [None]; a [try] body that returns assigns it, a handler that only
    logs leaves it as it was. *)
Definition check_for_vdp (domain : string) : M CheckOutcome :=
  url ← lift (urlparse ("https://" +:+ domain +:+ "/vulnerability-disclosure-policy"));
  result ←
    try_except
      (r ← self_hasher_hash_url (urlunparse url) true; mret (Some r))
      (λ err,
         if is_SSLError err then Some (
           logging WARNING
             ("Falling back to HTTPS without TLS verification for '"
              +:+ domain +:+ "'");;
           try_except
             (r ← self_hasher_hash_url (urlunparse url) false; mret (Some r))
             (λ err,
                if is_ConnectionError err || is_Timeout err then Some (
                  logging WARNING ("Falling back to HTTP for '" +:+ domain +:+ "'");;
                  try_except
                    (r ← self_hasher_hash_url
                           (urlunparse (ParseResult.replace_scheme "http" url)) true;
                     mret (Some r))
                    (λ err,
                       if is_Exception err
                       then Some (_log_vdp_failure domain err;; mret None)
                       else None))
                else if is_Exception err
                then Some (_log_vdp_failure domain err;; mret None)
                else None))
         else if is_ConnectionError err || is_Timeout err then Some (
           logging WARNING ("Falling back to HTTP for '" +:+ domain +:+ "'");;
           try_except
             (r ← self_hasher_hash_url
                    (urlunparse (ParseResult.replace_scheme "http" url)) true;
              mret (Some r))
             (λ err,
                if is_Exception err
                then Some (_log_vdp_failure domain err;; mret None)
                else None))
         else if is_Exception err
         then Some (_log_vdp_failure domain err;; mret None)
         else None);
  match result with
  | None => mret ("", false, false, "")
  | Some result =>
      if Z.eqb (UrlResult.status result) 200
      then mret (UrlResult.visited_url result, UrlResult.is_redirect result,
                 true, UrlResult.hash result)
      else mret (UrlResult.visited_url result, UrlResult.is_redirect result,
                 false, "")
  end.

(** *** The aggregator *)

(** [VdpScanner.__init__]: an empty [defaultdict] and an empty list.
    Nothing has been logged or fetched yet. *)
Definition init (hasher : Hasher) : World := MkWorld hasher ∅ [] [] [].

(** The [default_factory] of [agency_results]:
    [{k: 0 for k in self.agency_csv_header[1:]}] *)
Definition default_factory : gmap string Z :=
  list_to_map ((λ k, (k, 0)) <$> tail agency_csv_header).

Definition set_agency_results (m : gmap string (gmap string Z)) (w : World) : World :=
  MkWorld (_hasher w) m (domain_results w) (logged w) (fetches w).

Definition modify (f : World → World) : M () := λ w, (inr (), f w).

(** [self.agency_results[agency]] on a [defaultdict]: a missing key is
    first bound to a fresh default, which is then returned. *)
Definition agency_results_getitem (agency : string) : M (gmap string Z) :=
  λ w, match agency_results w !! agency with
       | Some info => (inr info, w)
       | None =>
           (inr default_factory,
            set_agency_results (<[agency := default_factory]> (agency_results w)) w)
       end.

(** [self.agency_results[agency][key] += 1]. The inner object is a plain
    [dict]: reading a key it lacks raises [KeyError]. The dict is updated
    in place, so the new value is seen under [agency]. *)
Definition increment (agency key : string) : M () :=
  info ← agency_results_getitem agency;
  match info !! key with
  | None => mthrow (Raise (OtherException "KeyError") ("'" +:+ key +:+ "'"))
  | Some n =>
      modify (λ w, set_agency_results
                     (<[agency := <[key := n + 1]> info]> (agency_results w)) w)
  end.

(** [self.domain_results.append(row)] *)
Definition domain_results_append (row : list (string * pyval)) : M () :=
  modify (λ w, MkWorld (_hasher w) (agency_results w) (domain_results w ++ [row])
                       (logged w) (fetches w)).

(** [if cond: body] *)
Definition when (cond : bool) (body : M ()) : M () :=
  if cond then body else mret ().

Definition add_domain_result (result : DomainResult.t) : M () :=
  domain_results_append (zip domain_csv_header (DomainResult.fields result));;
  increment (DomainResult.agency result) "Total Domains";;
  when (truthy (DomainResult.security_contact result)
        && negb (bool_decide (DomainResult.security_contact result
                              = MISSING_SECURITY_CONTACT)))
    (increment (DomainResult.agency result)
               "Domains with Security Contact Listed");;
  when (truthy (DomainResult.organization result))
    (increment (DomainResult.agency result) "Domains with Organization Listed");;
  when (bool_decide (DomainResult.agency result = DomainResult.organization result))
    (increment (DomainResult.agency result)
               "Domains with Matching Organization and Agency");;
  when (DomainResult.vdp_present result)
    (increment (DomainResult.agency result) "Domains with Published VDP").

(** [domain_info[key]] on a row of the input CSV. *)
Definition domain_info_getitem (domain_info : gmap string string) (key : string)
  : M string :=
  match domain_info !! key with
  | Some v => mret v
  | None => mthrow (Raise (OtherException "KeyError") ("'" +:+ key +:+ "'"))
  end.

Definition process_domain (domain_info : gmap string string) : M () :=
  name ← domain_info_getitem domain_info "Domain Name";
  vdp_result ← check_for_vdp name;
  let '(visited_url, is_redirect, vdp_present, vdp_hash) := vdp_result in
  f0 ← domain_info_getitem domain_info "Domain Name";
  f1 ← domain_info_getitem domain_info "Agency";
  f2 ← domain_info_getitem domain_info "Organization";
  f3 ← domain_info_getitem domain_info "Security Contact Email";
  add_domain_result
    (DomainResult.Make f0 f1 f2 f3 visited_url is_redirect vdp_present vdp_hash).

(** A run of consecutive calls, as the loop of [main] makes them. *)
Fixpoint for_each {A} (f : A → M ()) (l : list A) : M () :=
  match l with
  | [] => mret ()
  | x :: l => f x;; for_each f l
  end.

(** The value a counter shows in the agency CSV; zero for an agency no
    domain has been recorded for. *)
Definition counter (w : World) (agency key : string) : Z :=
  default 0 (agency_results w !! agency ≫= (.!! key)).

(** Every tally in the mapping carries the five counters. *)
Definition has_counters (info : gmap string Z) : Prop :=
  ∀ k, k ∈ tail agency_csv_header → is_Some (info !! k).

Definition tallies_wf (w : World) : Prop :=
  ∀ agency info, agency_results w !! agency = Some info → has_counters info.

(** The dict [self.agency_results[agency]] evaluates to. *)
Definition tally (w : World) (agency : string) : gmap string Z :=
  default default_factory (agency_results w !! agency).

(** [if cond: info[key] += 1], on a dict that has [key]. *)
Definition bump (key : string) (cond : bool) (info : gmap string Z) : gmap string Z :=
  if cond then alter (λ n, n + 1) key info else info.

(** The four conditional counters lie between zero and the total. *)
Definition consistent (info : gmap string Z) : Prop :=
  ∃ total contact listed matching published : Z,
    info !! "Total Domains" = Some total
    ∧ info !! "Domains with Security Contact Listed" = Some contact
    ∧ info !! "Domains with Organization Listed" = Some listed
    ∧ info !! "Domains with Matching Organization and Agency" = Some matching
    ∧ info !! "Domains with Published VDP" = Some published
    ∧ (0 ≤ contact ≤ total)%Z ∧ (0 ≤ listed ≤ total)%Z
    ∧ (0 ≤ matching ≤ total)%Z ∧ (0 ≤ published ≤ total)%Z.

Definition tallies_consistent (w : World) : Prop :=
  ∀ agency info, agency_results w !! agency = Some info → consistent info.

(** The tally of an agency after one more [add_domain_result]. *)
Definition recorded (result : DomainResult.t) (info : gmap string Z) : gmap string Z :=
  bump "Domains with Published VDP" (DomainResult.vdp_present result)
    (bump "Domains with Matching Organization and Agency"
       (bool_decide (DomainResult.agency result = DomainResult.organization result))
       (bump "Domains with Organization Listed"
          (truthy (DomainResult.organization result))
          (bump "Domains with Security Contact Listed"
             (truthy (DomainResult.security_contact result)
              && negb (bool_decide (DomainResult.security_contact result
                                    = MISSING_SECURITY_CONTACT)))
             (bump "Total Domains" true info)))).

End Scanner.

Arguments MkWorld {Hasher}.
Arguments tally {Hasher}.
Arguments tallies_consistent {Hasher}.
Arguments when {Hasher}.
Arguments modify {Hasher}.
Arguments agency_results_getitem {Hasher}.
Arguments domain_results_append {Hasher}.
Arguments set_agency_results {Hasher}.
Arguments init {Hasher}.
Arguments _hasher {Hasher}.
Arguments agency_results {Hasher}.
Arguments domain_results {Hasher}.
Arguments logged {Hasher}.
Arguments fetches {Hasher}.
Arguments counter {Hasher}.
Arguments tallies_wf {Hasher}.
Arguments add_domain_result {Hasher}.
Arguments increment {Hasher}.
Arguments for_each {Hasher A}.
Arguments check_for_vdp {Hasher}.
Arguments process_domain {Hasher}.

(** A call of [hash_url] that raised. *)
Definition failed (f : Fetch) : bool :=
  match fetch_response f with inl _ => true | inr _ => false end.

(** The warning of [_log_vdp_failure]. *)
Definition failure_warning (domain : string) : LogRecord :=
  Log WARNING ("Unable to retrieve hash for '" +:+ domain +:+ "'").

Definition is_failure_warning (domain : string) (r : LogRecord) : bool :=
  is_warning r && bool_decide (message r = message (failure_warning domain)).

(** The status mapping at the end of [check_for_vdp], for a result that
    is not [None]. *)
Definition outcome_of (r : UrlResult.t) : CheckOutcome :=
  if Z.eqb (UrlResult.status r) 200
  then (UrlResult.visited_url r, UrlResult.is_redirect r, true, UrlResult.hash r)
  else (UrlResult.visited_url r, UrlResult.is_redirect r, false, "").

(** ** A scripted hasher

    A hasher that answers its calls from a fixed script, whatever is
    asked; once the script is used up every call fails to connect. It
    drives the scenarios below. *)
Definition scripted (url : string) (verify : bool) (script : list (exn + UrlResult.t))
  : (exn + UrlResult.t) * list (exn + UrlResult.t) :=
  match script with
  | [] => (inl (Raise ConnectionError "no route to host"), [])
  | response :: script => (response, script)
  end.

(** Answers and failures for the scenarios. *)
Definition not_found : UrlResult.t :=
  UrlResult.Make 404 "http://nocert.gov/vulnerability-disclosure-policy" false "d41d8c".

Definition found : UrlResult.t :=
  UrlResult.Make 200 "https://example.gov/vulnerability-disclosure-policy" false "abc123".

Definition tls_error : exn := Raise SSLError "certificate verify failed".
Definition refused : exn := Raise ConnectionError "connection refused".
Definition timed_out : exn := Raise ReadTimeout "read timed out".
Definition malformed : exn := Raise (OtherException "ValueError") "malformed response".

(** ** Counting over a run *)

(** The guard under which [add_domain_result] adds one to the counter
    [key] of the agency of [result]. *)
Definition counts (key : string) (result : DomainResult.t) : bool :=
  bool_decide (key = "Total Domains")
  || (bool_decide (key = "Domains with Security Contact Listed")
      && truthy (DomainResult.security_contact result)
      && negb (bool_decide (DomainResult.security_contact result
                            = MISSING_SECURITY_CONTACT)))
  || (bool_decide (key = "Domains with Organization Listed")
      && truthy (DomainResult.organization result))
  || (bool_decide (key = "Domains with Matching Organization and Agency")
      && bool_decide (DomainResult.agency result = DomainResult.organization result))
  || (bool_decide (key = "Domains with Published VDP")
      && DomainResult.vdp_present result).

(** How many of [results] belong to [agency] and satisfy [p]. *)
Definition tallied (agency : string) (p : DomainResult.t → bool)
    (results : list DomainResult.t) : Z :=
  Z.of_nat (length (List.filter
                      (λ r, bool_decide (DomainResult.agency r = agency) && p r)
                      results)).

(** A tally has no key besides the five counters. *)
Definition tallies_exact {Hasher} (w : World Hasher) : Prop :=
  ∀ agency info key,
    agency_results w !! agency = Some info →
    key ∉ tail agency_csv_header → info !! key = None.

(** ** Rows of the input CSV *)

(** The row has the four columns [process_domain] reads. *)
Definition has_columns (domain_info : gmap string string) : Prop :=
  is_Some (domain_info !! "Domain Name")
  ∧ is_Some (domain_info !! "Agency")
  ∧ is_Some (domain_info !! "Organization")
  ∧ is_Some (domain_info !! "Security Contact Email").

(** The record is made of the four columns of the row. *)
Definition from_row (domain_info : gmap string string) (r : DomainResult.t) : Prop :=
  domain_info !! "Domain Name" = Some (DomainResult.domain r)
  ∧ domain_info !! "Agency" = Some (DomainResult.agency r)
  ∧ domain_info !! "Organization" = Some (DomainResult.organization r)
  ∧ domain_info !! "Security Contact Email" = Some (DomainResult.security_contact r).

(** ** The loop of [main] *)

#[local] Existing Instances M_ret M_bind M_throw.

(** [[f(x) for x in l]], stopping at the first exception. *)
Fixpoint map_M {Hasher A B} (f : A → M Hasher B) (l : list A) : M Hasher (list B) :=
  match l with
  | [] => mret []
  | x :: l => y ← f x; ys ← map_M f l; mret (y :: ys)
  end.

(** The stable sort behind [sorted(..., key=...)], on the list paired
    with its keys. Strings compare as Python compares [str]: character by
    character, a proper prefix first. An element goes in front of the
    first one whose key is not smaller; elements are put in from the last
    to the first, so equal keys keep the order they came in. *)
Fixpoint insert_by_key {A} (k : string) (x : A) (l : list (string * A))
  : list (string * A) :=
  match l with
  | [] => [(k, x)]
  | (k', y) :: l' =>
      if String.leb k k' then (k, x) :: l else (k', y) :: insert_by_key k x l'
  end.

Definition sort_by_key {A} (l : list (string * A)) : list (string * A) :=
  foldr (λ kx acc, insert_by_key kx.1 kx.2 acc) [] l.

(** [sorted(domains_to_scan, key=lambda d: d["Domain Name"])]: every key
    is read before anything is compared. *)
Definition sorted_by_domain_name {Hasher} (domains_to_scan : list (gmap string string))
  : M Hasher (list (gmap string string)) :=
  keys ← map_M (λ d, domain_info_getitem Hasher d "Domain Name") domains_to_scan;
  mret (sort_by_key (zip keys domains_to_scan)).*2.

(** [enumerate(l, start=1)] *)
Definition enumerate_from_1 {A} (l : list A) : list (nat * A) :=
  zip (seq 1 (length l)) l.

(** The body of the loop of [main], for the pair [(i, domain_info)]. *)
Definition main_body {Hasher}
    (hash_url : string → bool → Hasher → (exn + UrlResult.t) * Hasher)
    (urlparse : string → exn + ParseResult.t)
    (total_domains : nat) (item : nat * gmap string string) : M Hasher () :=
  name ← domain_info_getitem Hasher item.2 "Domain Name";
  logging Hasher INFO
    ("Processing '" +:+ name +:+ "' (" +:+ pretty item.1 +:+ "/"
     +:+ pretty total_domains +:+ ")...");;
  process_domain hash_url urlparse item.2.

(** [main], from [total_domains = len(domains_to_scan)] to the end of
    the loop over the sorted rows. *)
Definition main_loop {Hasher}
    (hash_url : string → bool → Hasher → (exn + UrlResult.t) * Hasher)
    (urlparse : string → exn + ParseResult.t)
    (domains_to_scan : list (gmap string string)) : M Hasher () :=
  let total_domains := length domains_to_scan in
  ordered ← sorted_by_domain_name domains_to_scan;
  for_each (main_body hash_url urlparse total_domains) (enumerate_from_1 ordered).

(** The cell of a row under a column, empty when the column is absent. *)
Definition column (domain_info : gmap string string) (key : string) : string :=
  default "" (domain_info !! key).

(** Whether [urlparse] accepts the URL that [check_for_vdp] builds for a
    domain, that is returns rather than raises. *)
Definition accepts (urlparse : string → exn + ParseResult.t) (domain : string) : bool :=
  match urlparse ("https://" +:+ domain +:+ "/vulnerability-disclosure-policy") with
  | inr _ => true
  | inl _ => false
  end.

Definition is_info (r : LogRecord) : bool :=
  match levelname r with INFO => true | _ => false end.

(** The record [logging.info("Processing '%s' (%d/%d)...", ...)] makes. *)
Definition progress (name : string) (i total : nat) : LogRecord :=
  Log INFO ("Processing '" +:+ name +:+ "' (" +:+ pretty i +:+ "/"
            +:+ pretty total +:+ ")...").

(** The order [sorted] leaves the keys in. *)
Definition key_le {A} (a b : string * A) : Prop := String.leb a.1 b.1 = true.

(** ** The version file *)

(** The double quote, character 34. *)
Definition double_quote : ascii := Ascii.ascii_of_nat 34.

(** [c in s] for a single character [c]. *)
Fixpoint contains (c : ascii) (s : string) : bool :=
  match s with
  | EmptyString => false
  | String c' s' => Ascii.eqb c' c || contains c s'
  end.

(** [s.split(sep)] for a separator of one character: the pieces between
    the separators, at least one piece. *)
Fixpoint split (sep : ascii) (s : string) : list string :=
  match s with
  | EmptyString => [EmptyString]
  | String c s' =>
      if Ascii.eqb c sep then EmptyString :: split sep s'
      else match split sep s' with
           | [] => [String c EmptyString]
           | piece :: pieces => String c piece :: pieces
           end
  end.

(** [get_version], on the lines of the file: [lines] is what
    [vfile.read().splitlines()] gives. Indexing the split line at 1
    raises [IndexError] when the line has no delimiter. *)
Fixpoint get_version (lines : list string) : exn + string :=
  match lines with
  | [] => inl (Raise (OtherException "RuntimeError") "Unable to find version string.")
  | line :: lines =>
      if String.prefix "__version__" line then
        let delim := if contains double_quote line then double_quote else "'"%char in
        match split delim line !! 1%nat with
        | Some version => inr version
        | None => inl (Raise (OtherException "IndexError") "list index out of range")
        end
      else get_version lines
  end.

(** What [urllib_urlparse] gives for the URL of a plain host name. *)
Definition https_url (host : string) : ParseResult.t :=
  ParseResult.Make "https" host "/vulnerability-disclosure-policy" "" "" "".

(** A row whose domain name opens a bracket that is never closed. *)
Definition row_unparsable : gmap string string :=
  {[ "Domain Name" := "["; "Agency" := "ACME"; "Organization" := "ACME";
     "Security Contact Email" := "(blank)" ]}.

(** A hasher with one answer left. *)
Definition answering : list (exn + UrlResult.t) := [inr found].

(** Rows of an input file for the scenarios. *)
Definition row_a : gmap string string :=
  {[ "Domain Name" := "a.gov"; "Agency" := "ACME"; "Organization" := "ACME";
     "Security Contact Email" := "sec@a.gov" ]}.

Definition row_b : gmap string string :=
  {[ "Domain Name" := "b.gov"; "Agency" := "ACME"; "Organization" := "";
     "Security Contact Email" := "(blank)" ]}.

Definition row_without_agency : gmap string string :=
  {[ "Domain Name" := "c.gov"; "Organization" := "ACME";
     "Security Contact Email" := "sec@c.gov" ]}.

Definition row_without_name : gmap string string :=
  {[ "Agency" := "ACME"; "Organization" := "ACME";
     "Security Contact Email" := "sec@d.gov" ]}.

Definition record_a : DomainResult.t :=
  DomainResult.Make "a.gov" "ACME" "ACME" "sec@a.gov"
    "https://a.gov/vulnerability-disclosure-policy" false true "abc123".

Definition record_b : DomainResult.t :=
  DomainResult.Make "b.gov" "ACME" "" "(blank)" "" false false "".

(** ** The URLs of the chain *)

(** Swapping the scheme of an https URL changes its text: the plain-HTTP
    URL is not the HTTPS one. *)
Lemma urlunparse_http_differs (url : ParseResult.t) :
  ParseResult.scheme url = "https" →
  urlunparse url ≠ urlunparse (ParseResult.replace_scheme "http" url).
Proof.
  destruct url as [scheme netloc path params query fragment]. cbn. intros ->.
  unfold urlunparse. cbn.
  repeat match goal with
         | |- context [if ?c then _ else _] => destruct c
         end.
  all: intros Heq; discriminate Heq.
Qed.

Section CheckerFacts.

Variable Hasher : Type.
Variable hash_url : string → bool → Hasher → (exn + UrlResult.t) * Hasher.
Variable urlparse : string → exn + ParseResult.t.

Lemma ret_outcome_of (r : UrlResult.t) (w : World Hasher) :
  (if Z.eqb (UrlResult.status r) 200
   then λ w : World Hasher,
       (inr (UrlResult.visited_url r, UrlResult.is_redirect r, true,
             UrlResult.hash r), w)
   else λ w : World Hasher,
       (inr (UrlResult.visited_url r, UrlResult.is_redirect r, false, ""), w)) w
  = (inr (outcome_of r) : exn + CheckOutcome, w).
Proof. unfold outcome_of. destruct (Z.eqb _ _); reflexivity. Qed.

Ltac run_chain :=
  unfold check_for_vdp, lift, try_except, _log_vdp_failure, logging,
    self_hasher_hash_url, mbind, mret, M_bind, M_ret, is_Exception;
  cbn beta iota zeta.

(** Walks the handlers of [check_for_vdp] once the URL is parsed: one
    goal per way the chain can end. *)
Ltac walk_handlers w :=
  let e1 := fresh "e1" in let r1 := fresh "r1" in let h1 := fresh "h1" in
  let e2 := fresh "e2" in let r2 := fresh "r2" in let h2 := fresh "h2" in
  let e3 := fresh "e3" in let r3 := fresh "r3" in let h3 := fresh "h3" in
  destruct (hash_url _ true (_hasher w)) as [[e1|r1] h1] eqn:?; cbn;
  [ destruct (is_SSLError e1) eqn:?; cbn;
    [ destruct (hash_url _ false h1) as [[e2|r2] h2] eqn:?; cbn;
      [ destruct (is_ConnectionError e2 || is_Timeout e2) eqn:?; cbn;
        [ destruct (hash_url _ true h2) as [[e3|r3] h3] eqn:?; cbn | ]
      | ]
    | destruct (is_ConnectionError e1 || is_Timeout e1) eqn:?; cbn;
      [ destruct (hash_url _ true h1) as [[e3|r3] h3] eqn:?; cbn | ] ]
  | ];
  rewrite <- ?app_assoc; cbn [app]; rewrite ?ret_outcome_of.

(** The chain for a URL that parsed, the parse being [Hparse]. *)
Ltac chain_cases w Hparse := run_chain; rewrite Hparse; cbn; walk_handlers w.

(** The chain for any parse; the first goal is the parse that raised. *)
Ltac chain_cases_any w :=
  run_chain;
  let e0 := fresh "e0" in let url := fresh "url" in
  destruct (urlparse _) as [e0|url] eqn:?; cbn; [|walk_handlers w].

Lemma is_failure_warning_self domain :
  is_failure_warning domain (failure_warning domain) = true.
Proof. unfold is_failure_warning. cbn. by rewrite bool_decide_eq_true_2. Qed.

(** What [urlparse] raises leaves [check_for_vdp] as it is, before any
    call on the hasher and any log record. *)
Lemma check_for_vdp_unparsed (domain : string) (w : World Hasher) (e : exn) :
  urlparse ("https://" +:+ domain +:+ "/vulnerability-disclosure-policy") = inl e →
  check_for_vdp hash_url urlparse domain w = (inl e, w).
Proof. intros Hparse. run_chain. by rewrite Hparse. Qed.

(** C1, as the code has it. For a domain whose URL [urlparse] accepts,
    whatever the hasher does, [check_for_vdp] returns a 4-tuple and
    raises nothing; when every call it made on the hasher raised, the
    tuple is [("", False, False, "")]. *)
Theorem check_for_vdp_returns_once_parsed
    (domain : string) (w : World Hasher) (url : ParseResult.t) :
  urlparse ("https://" +:+ domain +:+ "/vulnerability-disclosure-policy") = inr url →
  ∃ (o : CheckOutcome) (w' : World Hasher) (tr : list Fetch),
    check_for_vdp hash_url urlparse domain w = (inr o, w')
    ∧ fetches w' = fetches w ++ tr
    ∧ (Forall (λ f, failed f = true) tr → o = ("", false, false, "")).
Proof.
  intros Hparse. chain_cases w Hparse.
  all: eexists _, _, _; split; [reflexivity|]; split; [reflexivity|].
  all: try reflexivity.
  all: intros Hall; repeat (apply Forall_cons_1 in Hall as [? Hall]); discriminate.
Qed.

(** C2. The URL being parsed, a TLS error on verified HTTPS followed by a
    success on unverified HTTPS: the outcome comes from the unverified
    result, and the two calls on the HTTPS URL are the only ones made;
    the URL with the scheme swapped to http, another text, is never
    fetched. When [urlparse] raises no call is made at all, and there is
    no verified fetch to fail. *)
Theorem tls_fallback_returns_unverified_result
    (domain : string) (w : World Hasher) (url : ParseResult.t)
    (e : exn) (h1 h2 : Hasher) (r : UrlResult.t) :
  urlparse ("https://" +:+ domain +:+ "/vulnerability-disclosure-policy") = inr url →
  hash_url (urlunparse url) true (_hasher w) = (inl e, h1) →
  is_SSLError e = true →
  hash_url (urlunparse url) false h1 = (inr r, h2) →
  ∃ (w' : World Hasher) (tr : list Fetch),
    check_for_vdp hash_url urlparse domain w = (inr (outcome_of r), w')
    ∧ fetches w' = fetches w ++ tr
    ∧ tr = [Fetched (urlunparse url) true (inl e);
            Fetched (urlunparse url) false (inr r)]
    ∧ (ParseResult.scheme url = "https" →
       Forall (λ f, fetch_url f
                    ≠ urlunparse (ParseResult.replace_scheme "http" url)) tr).
Proof.
  intros Hparse E1 Hssl E2. run_chain. rewrite Hparse; cbn.
  rewrite E1; cbn. rewrite Hssl; cbn. rewrite E2; cbn.
  rewrite <- ?app_assoc, ret_outcome_of; cbn [app].
  eexists _, _; split; [reflexivity|]. split; [reflexivity|]. split; [reflexivity|].
  intros Hscheme. repeat constructor; by apply urlunparse_http_differs.
Qed.

(** C3. The URL being parsed, a connection failure or time-out that is no
    TLS error, on verified HTTPS: exactly one more call follows, on the
    same parsed URL with its scheme replaced by http; unverified HTTPS is
    not tried. The outcome comes from the HTTP result, or is all-empty
    when that call raises anything. *)
Theorem connection_failure_goes_to_http
    (domain : string) (w : World Hasher) (url : ParseResult.t)
    (e : exn) (h1 h2 : Hasher) (response : exn + UrlResult.t) :
  urlparse ("https://" +:+ domain +:+ "/vulnerability-disclosure-policy") = inr url →
  hash_url (urlunparse url) true (_hasher w) = (inl e, h1) →
  is_SSLError e = false →
  is_ConnectionError e || is_Timeout e = true →
  hash_url (urlunparse (ParseResult.replace_scheme "http" url)) true h1
  = (response, h2) →
  ∃ w' : World Hasher,
    check_for_vdp hash_url urlparse domain w
    = (inr (match response with
            | inr r => outcome_of r
            | inl _ => ("", false, false, "")
            end), w')
    ∧ fetches w'
      = fetches w
        ++ [Fetched (urlunparse url) true (inl e);
            Fetched (urlunparse (ParseResult.replace_scheme "http" url))
                    true response].
Proof.
  intros Hparse E1 Hssl Hconn E2. run_chain. rewrite Hparse; cbn.
  rewrite E1; cbn. rewrite Hssl; cbn. rewrite Hconn; cbn. rewrite E2; cbn.
  destruct response as [e3|r3]; cbn; rewrite <- ?app_assoc, ?ret_outcome_of; cbn [app].
  all: eexists; split; reflexivity.
Qed.

(** C4. Whenever a call on the hasher returned a result, that result
    decides the outcome: status 200 gives
    [(visited_url, is_redirect, True, hash)], any other status gives
    [(visited_url, is_redirect, False, "")]. *)
Theorem status_mapping
    (domain : string) (w w' : World Hasher) (o : CheckOutcome)
    (tr : list Fetch) (f : Fetch) (r : UrlResult.t) :
  check_for_vdp hash_url urlparse domain w = (inr o, w') →
  fetches w' = fetches w ++ tr →
  f ∈ tr →
  fetch_response f = inr r →
  o = if Z.eqb (UrlResult.status r) 200
      then (UrlResult.visited_url r, UrlResult.is_redirect r, true, UrlResult.hash r)
      else (UrlResult.visited_url r, UrlResult.is_redirect r, false, "").
Proof.
  intros Hrun Htr Hin Hresp. fold (outcome_of r).
  revert Hrun. chain_cases_any w.
  1: discriminate.
  all: intros [= <- <-]; cbn in Htr; apply app_inv_head in Htr; subst tr.
  all: repeat (apply elem_of_cons in Hin as [->|Hin]);
       try (by apply elem_of_nil in Hin); cbn in Hresp; congruence.
Qed.

Lemma outcome_of_inv (r : UrlResult.t) url redirect present h :
  outcome_of r = (url, redirect, present, h) →
  url = UrlResult.visited_url r
  ∧ (present = true → UrlResult.status r = 200)
  ∧ (h ≠ "" → present = true).
Proof.
  unfold outcome_of. destruct (Z.eqb_spec (UrlResult.status r) 200).
  all: intros [= <- <- <- <-]; repeat split; congruence.
Qed.

(** C5, as the code has it. A non-empty hash comes only with
    [vdp_present]; and with [vdp_present] the visited URL is the one a
    call that answered 200 reported, copied as it is: it is non-empty as
    soon as the hasher reports no empty URL. *)
Theorem outcome_invariant
    (domain : string) (w w' : World Hasher) (tr : list Fetch)
    (url : string) (redirect present : bool) (h : string) :
  check_for_vdp hash_url urlparse domain w = (inr (url, redirect, present, h), w') →
  fetches w' = fetches w ++ tr →
  (h ≠ "" → present = true)
  ∧ (present = true →
     ∃ f r, f ∈ tr ∧ fetch_response f = inr r
            ∧ UrlResult.status r = 200 ∧ url = UrlResult.visited_url r)
  ∧ ((∀ f r, f ∈ tr → fetch_response f = inr r → UrlResult.visited_url r ≠ "") →
     present = true → url ≠ "").
Proof.
  intros Hrun Htr. revert Hrun. chain_cases_any w.
  1: discriminate.
  all: intros Hrun; pose proof (f_equal fst Hrun) as Ho;
       pose proof (f_equal snd Hrun) as Hw; cbn in Ho, Hw; subst w'; clear Hrun;
       apply (inj inr) in Ho; cbn in Htr; apply app_inv_head in Htr; subst tr.
  all: try (injection Ho as <- <- <- <-; repeat split; congruence).
  all: apply outcome_of_inv in Ho as (-> & Hstatus & Hhash).
  all: split; [exact Hhash|]; split.
  all: match goal with
       | |- context [Fetched ?u ?v (inr ?r)] =>
           first
             [ intros Hp; exists (Fetched u v (inr r)), r;
               split; [set_solver|]; split; [reflexivity|];
               split; [auto|reflexivity]
             | intros Hurl _; apply (Hurl (Fetched u v (inr r)));
               [set_solver|reflexivity] ]
       end.
Qed.

(** C8, as the code has it. For a domain whose URL [urlparse] accepts,
    one to three calls are made on the hasher. When every one of them
    raised, the outcome is all-empty and the warning of
    [_log_vdp_failure] was logged once; each fallback taken before it
    logged a warning of its own, so the warnings are as many as the calls
    made. *)
Theorem exhausted_chain_logs_failure_once
    (domain : string) (w : World Hasher) (url : ParseResult.t) :
  urlparse ("https://" +:+ domain +:+ "/vulnerability-disclosure-policy") = inr url →
  ∃ (o : CheckOutcome) (w' : World Hasher) (tr : list Fetch) (lg : list LogRecord),
    check_for_vdp hash_url urlparse domain w = (inr o, w')
    ∧ fetches w' = fetches w ++ tr
    ∧ logged w' = logged w ++ lg
    ∧ (1 ≤ length tr ≤ 3)%nat
    ∧ (Forall (λ f, failed f = true) tr →
       o = ("", false, false, "")
       ∧ length (List.filter (is_failure_warning domain) lg) = 1%nat
       ∧ length (List.filter is_warning lg) = length tr).
Proof.
  intros Hparse. chain_cases w Hparse.
  all: eexists _, _, _, _; split; [reflexivity|]; split; [reflexivity|].
  all: split; [first [reflexivity | symmetry; apply app_nil_r]|].
  all: split; [cbn [length]; lia|].
  all: intros Hall.
  all: try (repeat (apply Forall_cons_1 in Hall as [? Hall]); discriminate).
  all: fold (failure_warning domain); cbn [List.filter is_warning levelname].
  all: rewrite ?is_failure_warning_self; auto.
Qed.

(** *** Further facts on the chain *)

Ltac chain_ends w Hparse :=
  chain_cases w Hparse; cbn [snd fetches logged agency_results domain_results].

Ltac chain_ends_any w :=
  chain_cases_any w; cbn [snd fetches logged agency_results domain_results].

(** X1. For a domain whose URL [urlparse] accepts, the calls of one
    check follow one of four shapes: verified HTTPS first; then nothing,
    unverified HTTPS, plain HTTP, or both in that order. HTTPS is the
    parsed URL put together again, HTTP the same with its scheme replaced;
    the HTTP call keeps [verify] at its default. *)
Theorem check_for_vdp_calls
    (domain : string) (w : World Hasher) (url : ParseResult.t) :
  urlparse ("https://" +:+ domain +:+ "/vulnerability-disclosure-policy") = inr url →
  ∃ tr : list Fetch,
    fetches (check_for_vdp hash_url urlparse domain w).2 = fetches w ++ tr
    ∧ ((λ f, (fetch_url f, fetch_verify f)) <$> tr)
      ∈ [ [(urlunparse url, true)];
          [(urlunparse url, true); (urlunparse url, false)];
          [(urlunparse url, true);
           (urlunparse (ParseResult.replace_scheme "http" url), true)];
          [(urlunparse url, true); (urlunparse url, false);
           (urlunparse (ParseResult.replace_scheme "http" url), true)] ].
Proof.
  intros Hparse. chain_ends w Hparse.
  all: eexists; split; [reflexivity|]; cbn [fmap list_fmap fetch_url fetch_verify].
  all: repeat first [apply list_elem_of_here | apply list_elem_of_further].
Qed.

(** X2. No call follows a call that returned: every call of a check but
    the last one raised. No call at all is made exactly when [urlparse]
    raises. *)
Theorem check_for_vdp_stops_at_first_result (domain : string) (w : World Hasher) :
  ∃ tr : list Fetch,
    fetches (check_for_vdp hash_url urlparse domain w).2 = fetches w ++ tr
    ∧ (tr = []
       ↔ ∃ e, urlparse ("https://" +:+ domain +:+ "/vulnerability-disclosure-policy")
              = inl e)
    ∧ (tr = [] ∨ ∃ (earlier : list Fetch) (last : Fetch),
                   tr = earlier ++ [last] ∧ Forall (λ f, failed f = true) earlier).
Proof.
  chain_ends_any w.
  1: { exists []. split; [by rewrite app_nil_r|]. split; [|by left].
       split; [by eexists|done]. }
  all: eexists; split; [reflexivity|]; split;
       [split; [discriminate|intros [? [=]]]|right].
  all: match goal with
       | |- ∃ _ _, [?a] = _ ∧ _ => exists [], a
       | |- ∃ _ _, [?a; ?b] = _ ∧ _ => exists [a], b
       | |- ∃ _ _, [?a; ?b; ?c] = _ ∧ _ => exists [a; b], c
       end.
  all: split; [reflexivity|]; repeat constructor.
Qed.

(** X3. The first call of a check verifies TLS, and verification is
    switched off for a later call exactly when that first call raised an
    [SSLError]. *)
Theorem unverified_only_after_tls_error (domain : string) (w : World Hasher) :
  ∃ tr : list Fetch,
    fetches (check_for_vdp hash_url urlparse domain w).2 = fetches w ++ tr
    ∧ (∀ first rest, tr = first :: rest → fetch_verify first = true)
    ∧ ((∃ f, f ∈ tr ∧ fetch_verify f = false)
       ↔ (∃ first rest e, tr = first :: rest
                          ∧ fetch_response first = inl e ∧ is_SSLError e = true)).
Proof.
  chain_ends_any w.
  1: { exists []. split; [by rewrite app_nil_r|]. split; [done|].
       split; [intros (f & Hin & _); by apply elem_of_nil in Hin
              |intros (? & ? & ? & [=] & _)]. }
  all: eexists; split; [reflexivity|]; split; [by intros ? ? [= <- <-]|].
  all: split.
  all: try (intros _; eexists _, _, _; split; [reflexivity|]; split;
            [reflexivity|assumption]).
  all: try (intros _; eexists; split;
            [apply list_elem_of_further, list_elem_of_here|reflexivity]).
  all: try (intros (f & Hin & Hv);
            repeat (apply elem_of_cons in Hin as [->|Hin]);
            try (by apply elem_of_nil in Hin); discriminate Hv).
  all: intros (first & rest & e & [= <- <-] & [= <-] & Hssl); congruence.
Qed.

(** X4. The URL being parsed: after a TLS error, a connection failure or
    time-out of the unverified call sends the check to plain HTTP; a
    second [SSLError] does so too, being a [ConnectionError]. The HTTP
    call decides the outcome. *)
Theorem unverified_failure_goes_to_http
    (domain : string) (w : World Hasher) (url : ParseResult.t)
    (e1 e2 : exn) (h1 h2 h3 : Hasher) (response : exn + UrlResult.t) :
  urlparse ("https://" +:+ domain +:+ "/vulnerability-disclosure-policy") = inr url →
  hash_url (urlunparse url) true (_hasher w) = (inl e1, h1) →
  is_SSLError e1 = true →
  hash_url (urlunparse url) false h1 = (inl e2, h2) →
  is_ConnectionError e2 || is_Timeout e2 = true →
  hash_url (urlunparse (ParseResult.replace_scheme "http" url)) true h2
  = (response, h3) →
  ∃ w' : World Hasher,
    check_for_vdp hash_url urlparse domain w
    = (inr (match response with
            | inr r => outcome_of r
            | inl _ => ("", false, false, "")
            end), w')
    ∧ fetches w'
      = fetches w
        ++ [Fetched (urlunparse url) true (inl e1);
            Fetched (urlunparse url) false (inl e2);
            Fetched (urlunparse (ParseResult.replace_scheme "http" url))
                    true response].
Proof.
  intros Hparse E1 Hssl E2 Hconn E3. run_chain. rewrite Hparse; cbn.
  rewrite E1; cbn. rewrite Hssl; cbn. rewrite E2; cbn. rewrite Hconn; cbn.
  rewrite E3; cbn.
  destruct response as [e3|r3]; cbn; rewrite <- ?app_assoc, ?ret_outcome_of; cbn [app].
  all: eexists; split; reflexivity.
Qed.

(** X5. The URL being parsed: a failure of the first call that is neither
    a connection failure nor a time-out ends the check at once: one call,
    the all-empty outcome, and the three records of [_log_vdp_failure]. *)
Theorem other_failure_is_terminal
    (domain : string) (w : World Hasher) (url : ParseResult.t)
    (e : exn) (h1 : Hasher) :
  urlparse ("https://" +:+ domain +:+ "/vulnerability-disclosure-policy") = inr url →
  hash_url (urlunparse url) true (_hasher w) = (inl e, h1) →
  is_ConnectionError e || is_Timeout e = false →
  ∃ w' : World Hasher,
    check_for_vdp hash_url urlparse domain w = (inr ("", false, false, ""), w')
    ∧ fetches w' = fetches w ++ [Fetched (urlunparse url) true (inl e)]
    ∧ logged w'
      = logged w
        ++ [Log WARNING ("Unable to retrieve hash for '" +:+ domain +:+ "'");
            Log DEBUG ("Caught " +:+ class_name (exn_type e));
            Log DEBUG (exn_str e)].
Proof.
  intros Hparse E1 Hother.
  assert (is_SSLError e = false) as Hssl.
  { destruct e as [[] ?]; cbn in *; congruence. }
  run_chain. rewrite Hparse; cbn. rewrite E1; cbn. rewrite Hssl; cbn.
  rewrite Hother; cbn. rewrite <- ?app_assoc; cbn [app].
  eexists; split; [reflexivity|]. split; reflexivity.
Qed.

(** X6. The same after a TLS error: a failure of the unverified call that
    is neither a connection failure nor a time-out ends the check without
    a call over HTTP. *)
Theorem other_failure_after_tls_error_is_terminal
    (domain : string) (w : World Hasher) (url : ParseResult.t)
    (e1 e2 : exn) (h1 h2 : Hasher) :
  urlparse ("https://" +:+ domain +:+ "/vulnerability-disclosure-policy") = inr url →
  hash_url (urlunparse url) true (_hasher w) = (inl e1, h1) →
  is_SSLError e1 = true →
  hash_url (urlunparse url) false h1 = (inl e2, h2) →
  is_ConnectionError e2 || is_Timeout e2 = false →
  ∃ w' : World Hasher,
    check_for_vdp hash_url urlparse domain w = (inr ("", false, false, ""), w')
    ∧ fetches w'
      = fetches w
        ++ [Fetched (urlunparse url) true (inl e1);
            Fetched (urlunparse url) false (inl e2)]
    ∧ logged w'
      = logged w
        ++ [Log WARNING ("Falling back to HTTPS without TLS verification for '"
                         +:+ domain +:+ "'");
            Log WARNING ("Unable to retrieve hash for '" +:+ domain +:+ "'");
            Log DEBUG ("Caught " +:+ class_name (exn_type e2));
            Log DEBUG (exn_str e2)].
Proof.
  intros Hparse E1 Hssl E2 Hother. run_chain. rewrite Hparse; cbn.
  rewrite E1; cbn. rewrite Hssl; cbn. rewrite E2; cbn. rewrite Hother; cbn.
  rewrite <- ?app_assoc; cbn [app].
  eexists; split; [reflexivity|]. split; reflexivity.
Qed.

(** X7. What a check logs, the URL being parsed. Each call after the
    first is announced by one warning: "Falling back to HTTPS without
    TLS verification for '<domain>'" before the unverified call,
    "Falling back to HTTP for '<domain>'" before the HTTP call. When the
    last call raised, the three records of [_log_vdp_failure] follow, and
    the two debug records describe that last exception; when it
    returned, nothing follows. *)
Theorem check_for_vdp_log
    (domain : string) (w : World Hasher) (url : ParseResult.t) :
  urlparse ("https://" +:+ domain +:+ "/vulnerability-disclosure-policy") = inr url →
  ∃ (first : Fetch) (later : list Fetch),
    fetches (check_for_vdp hash_url urlparse domain w).2 = fetches w ++ first :: later
    ∧ logged (check_for_vdp hash_url urlparse domain w).2
      = logged w
        ++ ((λ f, if fetch_verify f
                  then Log WARNING ("Falling back to HTTP for '" +:+ domain +:+ "'")
                  else Log WARNING
                         ("Falling back to HTTPS without TLS verification for '"
                          +:+ domain +:+ "'")) <$> later)
        ++ match fetch_response (List.last later first) with
           | inl e =>
               [Log WARNING ("Unable to retrieve hash for '" +:+ domain +:+ "'");
                Log DEBUG ("Caught " +:+ class_name (exn_type e));
                Log DEBUG (exn_str e)]
           | inr _ => []
           end.
Proof.
  intros Hparse. chain_ends w Hparse.
  all: eexists _, _; split; [reflexivity|].
  all: cbn [List.last fetch_response fetch_verify fmap list_fmap app].
  all: first [reflexivity | by rewrite app_nil_r].
Qed.

(** X8. A check leaves the tables of the scanner alone. *)
Theorem check_for_vdp_keeps_tables (domain : string) (w : World Hasher) :
  agency_results (check_for_vdp hash_url urlparse domain w).2 = agency_results w
  ∧ domain_results (check_for_vdp hash_url urlparse domain w).2 = domain_results w.
Proof. chain_ends_any w; split; reflexivity. Qed.

(** A check of a parsed URL always returns, with the tables as they were
    and at least one call made. *)
Lemma check_for_vdp_returns (domain : string) (w : World Hasher) (url : ParseResult.t) :
  urlparse ("https://" +:+ domain +:+ "/vulnerability-disclosure-policy") = inr url →
  ∃ (o : CheckOutcome) (w1 : World Hasher) (f : Fetch) (tr : list Fetch),
    check_for_vdp hash_url urlparse domain w = (inr o, w1)
    ∧ agency_results w1 = agency_results w
    ∧ domain_results w1 = domain_results w
    ∧ fetches w1 = fetches w ++ f :: tr.
Proof.
  intros Hparse. chain_cases w Hparse.
  all: eexists _, _, _, _; split; [reflexivity|]; repeat split.
Qed.

Lemma check_for_vdp_logs_no_info (domain : string) (w : World Hasher) :
  List.filter is_info (logged (check_for_vdp hash_url urlparse domain w).2)
  = List.filter is_info (logged w).
Proof.
  chain_ends_any w. all: rewrite ?List.filter_app; cbn; by rewrite ?app_nil_r.
Qed.

End CheckerFacts.

(** ** The aggregator *)

Lemma truthy_nonempty (s : string) : truthy s = bool_decide (s ≠ "").
Proof. by destruct s. Qed.

Lemma default_factory_counters : has_counters default_factory.
Proof.
  intros k Hk. unfold agency_csv_header in Hk. cbn in Hk.
  repeat (apply elem_of_cons in Hk as [->|Hk]); try (by apply elem_of_nil in Hk).
  all: by eexists.
Qed.

Lemma has_counters_alter (f : Z → Z) (k : string) (info : gmap string Z) :
  has_counters info → has_counters (alter f k info).
Proof.
  intros Hc k' Hk'. destruct (Hc k' Hk') as [n Hn].
  rewrite lookup_alter. case_decide; subst; rewrite Hn; by eexists.
Qed.

Lemma has_counters_bump (k : string) (b : bool) (info : gmap string Z) :
  has_counters info → has_counters (bump k b info).
Proof. destruct b; cbn; [apply has_counters_alter|done]. Qed.

Lemma lookup_bump (k k' : string) (b : bool) (info : gmap string Z) :
  bump k b info !! k'
  = if b && bool_decide (k = k') then (λ n, n + 1) <$> info !! k' else info !! k'.
Proof.
  destruct b; cbn; [|done]. rewrite lookup_alter.
  case_bool_decide; case_decide; congruence.
Qed.

Section AggregatorFacts.

Variable Hasher : Type.
Implicit Types (w : World Hasher) (result : DomainResult.t).

Lemma tally_counters w agency :
  tallies_wf w → has_counters (tally w agency).
Proof.
  intros Hwf. unfold tally.
  destruct (agency_results w !! agency) eqn:E; cbn;
    [by eapply Hwf|apply default_factory_counters].
Qed.

(** One [+= 1] on a world whose entry for [agency], once the
    [defaultdict] has supplied it, is [t]. *)
Lemma increment_run w agency key t :
  tally w agency = t → has_counters t → key ∈ tail agency_csv_header →
  increment agency key w
  = (inr (), set_agency_results
               (<[agency := bump key true t]> (agency_results w)) w).
Proof.
  intros Ht Hc Hk. destruct (Hc key Hk) as [n Hn].
  unfold increment, agency_results_getitem, mbind, M_bind, modify, tally in *.
  destruct (agency_results w !! agency) eqn:E; cbn in *; subst t; rewrite Hn; cbn.
  all: f_equal; unfold set_agency_results; cbn; f_equal.
  all: rewrite ?insert_insert_eq; f_equal.
  all: apply map_eq; intros k'; rewrite lookup_alter, lookup_insert.
  all: case_decide; subst; by rewrite ?Hn.
Qed.

Lemma when_increment_run w agency key cond t m :
  agency_results w = <[agency := t]> m →
  has_counters t → key ∈ tail agency_csv_header →
  when cond (increment agency key) w
  = (inr (), set_agency_results (<[agency := bump key cond t]> m) w).
Proof.
  intros Hw Hc Hk. destruct cond; cbn [when bump].
  - rewrite (increment_run w agency key t); [|unfold tally|..]; try done.
    + by rewrite Hw, insert_insert_eq.
    + by rewrite Hw, lookup_insert_eq.
  - destruct w; cbn in *; by subst.
Qed.

Ltac key_in_header := unfold agency_csv_header; cbn [tail]; repeat constructor.

(** What one call does to a world whose tallies are complete. *)
Lemma add_domain_result_run w result :
  tallies_wf w →
  add_domain_result result w
  = (inr (),
     MkWorld (_hasher w)
       (<[DomainResult.agency result
          := recorded result (tally w (DomainResult.agency result))]>
          (agency_results w))
       (domain_results w ++ [zip domain_csv_header (DomainResult.fields result)])
       (logged w) (fetches w)).
Proof.
  intros Hwf. pose proof (tally_counters w (DomainResult.agency result) Hwf) as Hc.
  unfold add_domain_result, domain_results_append, modify, recorded.
  unfold mbind, M_bind.
  erewrite increment_run; [|reflexivity|exact Hc|key_in_header].
  repeat (erewrite when_increment_run;
          [|reflexivity|repeat apply has_counters_bump; exact Hc|key_in_header]).
  reflexivity.
Qed.

Lemma counter_tally w agency key :
  tallies_wf w → key ∈ tail agency_csv_header →
  tally w agency !! key = Some (counter w agency key).
Proof.
  intros Hwf Hk. unfold tally, counter.
  destruct (agency_results w !! agency) as [info|] eqn:E.
  - cbn. destruct (Hwf _ _ E key Hk) as [n ->]. done.
  - unfold agency_csv_header in Hk. cbn in Hk.
    repeat (apply elem_of_cons in Hk as [->|Hk]); try (by apply elem_of_nil in Hk).
    all: reflexivity.
Qed.

(** Settles the comparisons between the literal keys of a tally. *)
Ltac decide_keys :=
  repeat match goal with
         | |- context [bool_decide (?a = ?b)] =>
             let v := eval vm_compute in (bool_decide (a = b)) in
             match v with true => idtac | false => idtac end;
             change (bool_decide (a = b)) with v
         end;
  rewrite ?andb_false_r, ?andb_true_r; cbn [fmap option_fmap option_map].

Ltac recorded_lookup Hwf :=
  unfold recorded; rewrite !lookup_bump, (counter_tally _ _ _ Hwf) by key_in_header;
  decide_keys.

Ltac settle :=
  rewrite ?truthy_nonempty; unfold MISSING_SECURITY_CONTACT in *;
  repeat case_bool_decide; cbn; try done; try (f_equal; lia);
  try (exfalso; intuition congruence).

Lemma recorded_other_keys w result key :
  key ∉ tail agency_csv_header →
  recorded result (tally w (DomainResult.agency result)) !! key
  = tally w (DomainResult.agency result) !! key.
Proof.
  intros Hk.
  assert (∀ k, k ∈ tail agency_csv_header → bool_decide (k = key) = false) as Hne.
  { intros k Hin. apply bool_decide_eq_false_2. by intros ->. }
  unfold recorded. rewrite !lookup_bump, !Hne by key_in_header.
  by rewrite ?andb_false_r.
Qed.

(** C6. One [add_domain_result] raises nothing and leaves the agency of
    the record with a tally in which "Total Domains" grew by one and each
    of the four other counters grew by one exactly when its condition
    holds, and stayed as it was otherwise; the tally has no further
    counters. *)
Theorem add_domain_result_counters w result :
  tallies_wf w →
  ∃ (w' : World Hasher) (info : gmap string Z),
    add_domain_result result w = (inr (), w')
    ∧ agency_results w' !! DomainResult.agency result = Some info
    ∧ info !! "Total Domains"
      = Some (counter w (DomainResult.agency result) "Total Domains" + 1)
    ∧ info !! "Domains with Security Contact Listed"
      = Some (counter w (DomainResult.agency result)
                "Domains with Security Contact Listed"
              + if bool_decide (DomainResult.security_contact result ≠ ""
                                ∧ DomainResult.security_contact result ≠ "(blank)")
                then 1 else 0)
    ∧ info !! "Domains with Organization Listed"
      = Some (counter w (DomainResult.agency result)
                "Domains with Organization Listed"
              + if bool_decide (DomainResult.organization result ≠ "")
                then 1 else 0)
    ∧ info !! "Domains with Matching Organization and Agency"
      = Some (counter w (DomainResult.agency result)
                "Domains with Matching Organization and Agency"
              + if bool_decide (DomainResult.organization result
                                = DomainResult.agency result)
                then 1 else 0)
    ∧ info !! "Domains with Published VDP"
      = Some (counter w (DomainResult.agency result) "Domains with Published VDP"
              + if DomainResult.vdp_present result then 1 else 0)
    ∧ (∀ key, key ∉ tail agency_csv_header →
              info !! key = tally w (DomainResult.agency result) !! key).
Proof.
  intros Hwf. rewrite (add_domain_result_run _ _ Hwf).
  eexists _, _. split; [reflexivity|]. cbn [agency_results].
  split; [apply lookup_insert_eq|].
  repeat split; try (intros key Hk; by apply recorded_other_keys).
  all: recorded_lookup Hwf.
  all: try destruct (DomainResult.vdp_present result); settle.
Qed.

(** C9. One [add_domain_result] puts one row after the rows already
    there, leaves the tally of every other agency as it was, and keeps
    every agency that was in the mapping. *)
Theorem add_domain_result_frame w result :
  tallies_wf w →
  ∃ w' : World Hasher,
    add_domain_result result w = (inr (), w')
    ∧ domain_results w'
      = domain_results w
        ++ [[("Domain", PyStr (DomainResult.domain result));
             ("Agency", PyStr (DomainResult.agency result));
             ("Organization", PyStr (DomainResult.organization result));
             ("Security Contact Email", PyStr (DomainResult.security_contact result));
             ("Visited URL", PyStr (DomainResult.visited_url result));
             ("Was it Redirected", PyBool (DomainResult.is_redirect result));
             ("VDP is Published", PyBool (DomainResult.vdp_present result));
             ("VDP Hash", PyStr (DomainResult.vdp_hash result))]]
    ∧ (∀ agency, agency ≠ DomainResult.agency result →
                 agency_results w' !! agency = agency_results w !! agency)
    ∧ (∀ agency, is_Some (agency_results w !! agency) →
                 is_Some (agency_results w' !! agency)).
Proof.
  intros Hwf. rewrite (add_domain_result_run _ _ Hwf).
  eexists. split; [reflexivity|]. cbn [agency_results domain_results].
  split; [reflexivity|]. split.
  - intros agency Hne. by rewrite lookup_insert_ne.
  - intros agency Hsome. rewrite lookup_insert. by case_decide.
Qed.

(** *** Consistency of the counters over a run *)

Lemma consistent_counters (info : gmap string Z) : consistent info → has_counters info.
Proof.
  intros (total & contact & listed & matching & published
          & H1 & H2 & H3 & H4 & H5 & _) k Hk.
  unfold agency_csv_header in Hk. cbn in Hk.
  repeat (apply elem_of_cons in Hk as [->|Hk]); try (by apply elem_of_nil in Hk).
  all: by eexists.
Qed.

Lemma tallies_consistent_wf w : tallies_consistent w → tallies_wf w.
Proof. intros Hinv agency info E. eapply consistent_counters, Hinv, E. Qed.

Lemma default_factory_consistent : consistent default_factory.
Proof. exists 0, 0, 0, 0, 0. repeat split; reflexivity || lia. Qed.

Lemma tally_consistent w agency : tallies_consistent w → consistent (tally w agency).
Proof.
  intros Hinv. unfold tally.
  destruct (agency_results w !! agency) eqn:E; cbn;
    [by eapply Hinv|apply default_factory_consistent].
Qed.

Lemma recorded_consistent w result :
  tallies_consistent w →
  consistent (recorded result (tally w (DomainResult.agency result))).
Proof.
  intros Hinv. pose proof (tallies_consistent_wf w Hinv) as Hwf.
  destruct (tally_consistent w (DomainResult.agency result) Hinv)
    as (total & contact & listed & matching & published
        & H1 & H2 & H3 & H4 & H5 & B2 & B3 & B4 & B5).
  rewrite (counter_tally _ _ _ Hwf) in H1 by key_in_header.
  rewrite (counter_tally _ _ _ Hwf) in H2 by key_in_header.
  rewrite (counter_tally _ _ _ Hwf) in H3 by key_in_header.
  rewrite (counter_tally _ _ _ Hwf) in H4 by key_in_header.
  rewrite (counter_tally _ _ _ Hwf) in H5 by key_in_header.
  injection H1 as H1. injection H2 as H2. injection H3 as H3.
  injection H4 as H4. injection H5 as H5.
  exists (total + 1),
    (contact + if truthy (DomainResult.security_contact result)
                  && negb (bool_decide (DomainResult.security_contact result
                                        = MISSING_SECURITY_CONTACT))
               then 1 else 0),
    (listed + if truthy (DomainResult.organization result) then 1 else 0),
    (matching + if bool_decide (DomainResult.agency result
                                = DomainResult.organization result)
                then 1 else 0),
    (published + if DomainResult.vdp_present result then 1 else 0).
  repeat split.
  all: try (recorded_lookup Hwf).
  all: repeat match goal with |- context [if ?c then _ else _] => destruct c end.
  all: try (f_equal; lia); lia.
Qed.

Lemma add_domain_result_consistent w result :
  tallies_consistent w →
  ∃ w' : World Hasher,
    add_domain_result result w = (inr (), w') ∧ tallies_consistent w'.
Proof.
  intros Hinv. rewrite (add_domain_result_run _ _ (tallies_consistent_wf w Hinv)).
  eexists. split; [reflexivity|]. intros agency info. cbn [agency_results].
  rewrite lookup_insert. case_decide.
  - intros [= <-]. by apply recorded_consistent.
  - apply Hinv.
Qed.

Lemma for_each_consistent (results : list DomainResult.t) w :
  tallies_consistent w →
  ∃ w' : World Hasher,
    for_each add_domain_result results w = (inr (), w') ∧ tallies_consistent w'.
Proof.
  revert w. induction results as [|result results IH]; intros w Hinv.
  - by exists w.
  - destruct (add_domain_result_consistent w result Hinv) as (w1 & Hrun & Hinv1).
    destruct (IH w1 Hinv1) as (w' & Hrest & Hinv').
    exists w'. split; [|exact Hinv'].
    cbn [for_each]. unfold mbind, M_bind. by rewrite Hrun.
Qed.

(** C7. From a fresh scanner, any run of [add_domain_result] calls raises
    nothing and leaves every agency of the mapping with all five
    counters, each of the four conditional ones between zero and "Total
    Domains". *)
Theorem counters_stay_consistent (hasher : Hasher) (results : list DomainResult.t) :
  ∃ w : World Hasher,
    for_each add_domain_result results (init hasher) = (inr (), w)
    ∧ ∀ (agency : string) (info : gmap string Z),
        agency_results w !! agency = Some info →
        ∃ total contact listed matching published : Z,
          info !! "Total Domains" = Some total
          ∧ info !! "Domains with Security Contact Listed" = Some contact
          ∧ info !! "Domains with Organization Listed" = Some listed
          ∧ info !! "Domains with Matching Organization and Agency" = Some matching
          ∧ info !! "Domains with Published VDP" = Some published
          ∧ (0 ≤ total)%Z
          ∧ (0 ≤ contact ≤ total)%Z ∧ (0 ≤ listed ≤ total)%Z
          ∧ (0 ≤ matching ≤ total)%Z ∧ (0 ≤ published ≤ total)%Z.
Proof.
  destruct (for_each_consistent results (init hasher)) as (w & Hrun & Hinv).
  { intros agency info E. cbn in E. by rewrite lookup_empty in E. }
  exists w. split; [exact Hrun|]. intros agency info E.
  destruct (Hinv agency info E)
    as (total & contact & listed & matching & published
        & H1 & H2 & H3 & H4 & H5 & B2 & B3 & B4 & B5).
  exists total, contact, listed, matching, published.
  repeat split; try done; lia.
Qed.

(** C10. The matching counter grows whenever organization and agency are
    the same string, empty or not; when both are empty the listed counter
    stays, and the run of one such record leaves the matching counter
    above the listed counter. *)
Theorem matching_counts_empty_organization :
  (∀ w result,
     tallies_wf w →
     DomainResult.agency result = DomainResult.organization result →
     ∃ w' : World Hasher,
       add_domain_result result w = (inr (), w')
       ∧ counter w' (DomainResult.agency result)
           "Domains with Matching Organization and Agency"
         = counter w (DomainResult.agency result)
             "Domains with Matching Organization and Agency" + 1
       ∧ (DomainResult.organization result = "" →
          counter w' (DomainResult.agency result) "Domains with Organization Listed"
          = counter w (DomainResult.agency result) "Domains with Organization Listed"))
  ∧ (∀ hasher : Hasher,
       ∃ w' : World Hasher,
         for_each add_domain_result
           [DomainResult.Make "example.gov" "" "" "(blank)" "" false false ""]
           (init hasher) = (inr (), w')
         ∧ counter w' "" "Domains with Organization Listed" = 0
         ∧ counter w' "" "Domains with Matching Organization and Agency" = 1
         ∧ (counter w' "" "Domains with Organization Listed"
            < counter w' "" "Domains with Matching Organization and Agency")%Z).
Proof.
  split.
  - intros w result Hwf Heq. rewrite (add_domain_result_run _ _ Hwf).
    eexists. split; [reflexivity|]. unfold counter at 1 3. cbn [agency_results].
    rewrite lookup_insert_eq. cbn [mbind option_bind].
    split; [|intros Hempty]; recorded_lookup Hwf.
    + rewrite (bool_decide_eq_true_2 _ Heq). done.
    + rewrite Hempty. done.
  - intros hasher. eexists. split; [reflexivity|]. repeat split.
Qed.

Lemma init_wf (hasher : Hasher) : tallies_wf (init hasher).
Proof. intros agency info E. cbn in E. by rewrite lookup_empty in E. Qed.

(** *** Tallies as counts *)

Lemma add_domain_result_wf w result :
  tallies_wf w → tallies_wf (add_domain_result result w).2.
Proof.
  intros Hwf. rewrite (add_domain_result_run _ _ Hwf). cbn [snd].
  intros agency info. cbn [agency_results]. rewrite lookup_insert. case_decide.
  - intros [= <-]. unfold recorded. repeat apply has_counters_bump.
    by apply tally_counters.
  - apply Hwf.
Qed.

Lemma default_factory_exact (key : string) :
  key ∉ tail agency_csv_header → default_factory !! key = None.
Proof.
  intros Hk. unfold default_factory. apply not_elem_of_list_to_map_1.
  rewrite <- list_fmap_compose.
  replace ((fst ∘ (λ k : string, (k, 0))) <$> tail agency_csv_header)
    with (tail agency_csv_header); [done|].
  reflexivity.
Qed.

Lemma add_domain_result_exact w result :
  tallies_wf w → tallies_exact w → tallies_exact (add_domain_result result w).2.
Proof.
  intros Hwf Hex. rewrite (add_domain_result_run _ _ Hwf). cbn [snd].
  intros agency info key. cbn [agency_results]. rewrite lookup_insert. case_decide.
  - intros [= <-] Hk. rewrite recorded_other_keys by done. unfold tally.
    destruct (agency_results w !! DomainResult.agency result) eqn:E; cbn.
    + by eapply Hex.
    + by apply default_factory_exact.
  - apply Hex.
Qed.

Lemma add_domain_result_counter w result agency key :
  tallies_wf w → key ∈ tail agency_csv_header →
  counter (add_domain_result result w).2 agency key
  = counter w agency key
    + if bool_decide (DomainResult.agency result = agency) && counts key result
      then 1 else 0.
Proof.
  intros Hwf Hk. rewrite (add_domain_result_run _ _ Hwf). cbn [snd].
  unfold counter at 1. cbn [agency_results]. rewrite lookup_insert.
  case_bool_decide as Hag; [subst agency; rewrite decide_True by done
                           |rewrite decide_False by done].
  2: { cbn [andb]. unfold counter. lia. }
  cbn [mbind option_bind andb]. unfold counts.
  unfold agency_csv_header in Hk. cbn [tail] in Hk.
  repeat (apply elem_of_cons in Hk as [->|Hk]); try (by apply elem_of_nil in Hk).
  all: recorded_lookup Hwf; cbn [orb andb default].
  all: repeat match goal with
         | |- context [if ?c then _ else _] => destruct c eqn:?
         end; cbn [default]; unfold id; lia.
Qed.

Lemma add_domain_result_presence w result agency :
  tallies_wf w →
  is_Some (agency_results (add_domain_result result w).2 !! agency)
  ↔ is_Some (agency_results w !! agency) ∨ DomainResult.agency result = agency.
Proof.
  intros Hwf. rewrite (add_domain_result_run _ _ Hwf). cbn [snd agency_results].
  rewrite lookup_insert. case_decide.
  - split; [by right|by eexists].
  - split; [by left|]. by intros [?|?].
Qed.

Lemma add_domain_result_ok w result :
  tallies_wf w → (add_domain_result result w).1 = inr ().
Proof. intros Hwf. by rewrite (add_domain_result_run _ _ Hwf). Qed.

Lemma add_domain_result_rows w result :
  tallies_wf w →
  domain_results (add_domain_result result w).2
  = domain_results w ++ [zip domain_csv_header (DomainResult.fields result)].
Proof. intros Hwf. by rewrite (add_domain_result_run _ _ Hwf). Qed.

Lemma add_domain_result_outside w result :
  tallies_wf w →
  _hasher (add_domain_result result w).2 = _hasher w
  ∧ logged (add_domain_result result w).2 = logged w
  ∧ fetches (add_domain_result result w).2 = fetches w.
Proof. intros Hwf. by rewrite (add_domain_result_run _ _ Hwf). Qed.

Lemma for_each_cons {A} (f : A → M Hasher ()) (x : A) (l : list A) w w1 :
  f x w = (inr (), w1) → for_each f (x :: l) w = for_each f l w1.
Proof. intros Hx. cbn [for_each]. unfold mbind, M_bind. by rewrite Hx. Qed.

(** A run from any complete world, all at once. *)
Lemma for_each_add_run (results : list DomainResult.t) w :
  tallies_wf w →
  ∃ w' : World Hasher,
    for_each add_domain_result results w = (inr (), w')
    ∧ tallies_wf w'
    ∧ (tallies_exact w → tallies_exact w')
    ∧ domain_results w'
      = domain_results w
        ++ ((λ r, zip domain_csv_header (DomainResult.fields r)) <$> results)
    ∧ (∀ agency key, key ∈ tail agency_csv_header →
         counter w' agency key
         = counter w agency key + tallied agency (counts key) results)
    ∧ (∀ agency,
         is_Some (agency_results w' !! agency)
         ↔ is_Some (agency_results w !! agency)
           ∨ ∃ r, r ∈ results ∧ DomainResult.agency r = agency).
Proof.
  revert w. induction results as [|r results IH]; intros w Hwf.
  - exists w. split; [reflexivity|]. split; [done|]. split; [done|].
    split; [by rewrite app_nil_r|]. split.
    + intros agency key _. unfold tallied. cbn. lia.
    + intros agency. split; [by left|]. intros [?|(r & Hin & _)]; [done|].
      by apply elem_of_nil in Hin.
  - pose proof (add_domain_result_ok w r Hwf) as Hok.
    destruct (add_domain_result r w) as [res w1] eqn:Hrun. cbn in Hok. subst res.
    assert (tallies_wf w1) as Hwf1.
    { pose proof (add_domain_result_wf w r Hwf) as H1. by rewrite Hrun in H1. }
    destruct (IH w1 Hwf1) as (w' & Hrest & Hwf' & Hex' & Hrows & Hcount & Hpres).
    exists w'. split; [by rewrite (for_each_cons _ _ _ _ _ Hrun)|].
    split; [done|]. split; [|split; [|split]].
    + intros Hex. apply Hex'.
      pose proof (add_domain_result_exact w r Hwf Hex) as H1. by rewrite Hrun in H1.
    + rewrite Hrows. pose proof (add_domain_result_rows w r Hwf) as H1.
      rewrite Hrun in H1. cbn [snd] in H1. rewrite H1, <- app_assoc. done.
    + intros agency key Hk. rewrite (Hcount agency key Hk).
      pose proof (add_domain_result_counter w r agency key Hwf Hk) as H1.
      rewrite Hrun in H1. cbn [snd] in H1. rewrite H1. unfold tallied.
      cbn [List.filter].
      destruct (bool_decide (DomainResult.agency r = agency) && counts key r);
        cbn [length]; lia.
    + intros agency. rewrite Hpres.
      pose proof (add_domain_result_presence w r agency Hwf) as H1.
      rewrite Hrun in H1. cbn [snd] in H1. rewrite H1. split.
      * intros [[?|<-]|(r' & Hin & Hag)]; [by left|right..].
        -- exists r. split; [apply list_elem_of_here|done].
        -- exists r'. split; [by apply list_elem_of_further|done].
      * intros [?|(r' & Hin & Hag)]; [by left; left|].
        apply elem_of_cons in Hin as [->|Hin]; [by left; right|].
        right. by exists r'.
Qed.

Lemma init_exact (hasher : Hasher) : tallies_exact (init hasher).
Proof. intros agency info key E. cbn in E. by rewrite lookup_empty in E. Qed.

Lemma counter_init (hasher : Hasher) agency key : counter (init hasher) agency key = 0.
Proof. unfold counter. cbn. by rewrite lookup_empty. Qed.

Lemma tallied_ext agency (p q : DomainResult.t → bool) results :
  (∀ r, DomainResult.agency r = agency → p r = q r) →
  tallied agency p results = tallied agency q results.
Proof.
  intros Hpq. unfold tallied. do 2 f_equal. apply List.filter_ext. intros r.
  case_bool_decide; cbn [andb]; [by apply Hpq|done].
Qed.

Lemma tallied_Permutation agency p (results1 results2 : list DomainResult.t) :
  results1 ≡ₚ results2 → tallied agency p results1 = tallied agency p results2.
Proof.
  intros Hperm. unfold tallied. f_equal.
  induction Hperm as [|r l1 l2 _ IH|r1 r2 l|l1 l2 l3 _ IH1 _ IH2]; cbn [List.filter].
  - done.
  - destruct (_ && _); cbn [length]; by rewrite IH.
  - do 2 destruct (_ && _); done.
  - by rewrite IH1.
Qed.

(** X9. The rows of [domain_results] are the records handed over, one row
    each, in the order of the calls. *)
Theorem domain_results_follow_the_run
    (hasher : Hasher) (results : list DomainResult.t) :
  domain_results (for_each add_domain_result results (init hasher)).2
  = (λ r, zip domain_csv_header (DomainResult.fields r)) <$> results.
Proof.
  destruct (for_each_add_run results (init hasher) (init_wf hasher))
    as (w & -> & _ & _ & Hrows & _).
  exact Hrows.
Qed.

(** X10. After a run from a fresh scanner each counter of an agency is the
    number of records of that agency that meet the counter's condition. *)
Theorem tallies_are_counts
    (hasher : Hasher) (results : list DomainResult.t) (agency : string) :
  let w := (for_each add_domain_result results (init hasher)).2 in
  counter w agency "Total Domains"
  = Z.of_nat (length (List.filter
       (λ r, bool_decide (DomainResult.agency r = agency)) results))
  ∧ counter w agency "Domains with Security Contact Listed"
    = Z.of_nat (length (List.filter
         (λ r, bool_decide (DomainResult.agency r = agency)
               && bool_decide (DomainResult.security_contact r ≠ ""
                               ∧ DomainResult.security_contact r ≠ "(blank)"))
         results))
  ∧ counter w agency "Domains with Organization Listed"
    = Z.of_nat (length (List.filter
         (λ r, bool_decide (DomainResult.agency r = agency)
               && bool_decide (DomainResult.organization r ≠ ""))
         results))
  ∧ counter w agency "Domains with Matching Organization and Agency"
    = Z.of_nat (length (List.filter
         (λ r, bool_decide (DomainResult.agency r = agency)
               && bool_decide (DomainResult.organization r = agency))
         results))
  ∧ counter w agency "Domains with Published VDP"
    = Z.of_nat (length (List.filter
         (λ r, bool_decide (DomainResult.agency r = agency)
               && DomainResult.vdp_present r)
         results)).
Proof.
  destruct (for_each_add_run results (init hasher) (init_wf hasher))
    as (w & -> & _ & _ & _ & Hcount & _).
  cbn [snd].
  assert (∀ key p,
            key ∈ tail agency_csv_header →
            (∀ r, DomainResult.agency r = agency → counts key r = p r) →
            counter w agency key
            = Z.of_nat (length (List.filter
                 (λ r, bool_decide (DomainResult.agency r = agency) && p r)
                 results))) as Hc.
  { intros key p Hk Hp. rewrite Hcount, counter_init by done.
    rewrite Z.add_0_l. by apply tallied_ext. }
  assert (∀ r : DomainResult.t,
            truthy (DomainResult.security_contact r)
            && negb (bool_decide (DomainResult.security_contact r
                                  = MISSING_SECURITY_CONTACT))
            = bool_decide (DomainResult.security_contact r ≠ ""
                           ∧ DomainResult.security_contact r ≠ "(blank)")) as Hsc.
  { intros r. rewrite truthy_nonempty. unfold MISSING_SECURITY_CONTACT.
    repeat case_bool_decide; cbn; try done; exfalso; intuition congruence. }
  split; [|split; [|split; [|split]]].
  - rewrite (Hc _ (λ _, true)); [|key_in_header|done].
    do 2 f_equal. apply List.filter_ext. intros r. by rewrite andb_true_r.
  - apply Hc; [key_in_header|]. intros r _. unfold counts. decide_keys.
    cbn [orb andb]. by rewrite ?orb_false_r, Hsc.
  - apply Hc; [key_in_header|]. intros r _. unfold counts. decide_keys.
    cbn [orb andb]. by rewrite ?orb_false_r, truthy_nonempty.
  - apply Hc; [key_in_header|]. intros r Hag. unfold counts. decide_keys.
    cbn [orb andb]. rewrite ?orb_false_r, Hag.
    repeat case_bool_decide; congruence.
  - apply Hc; [key_in_header|]. intros r _. unfold counts. decide_keys.
    cbn [orb andb]. done.
Qed.

(** X11. The agencies of the mapping are the agencies of the records seen: an
    entry is made at the first record of an agency and for no other
    reason. *)
Theorem agencies_are_those_seen
    (hasher : Hasher) (results : list DomainResult.t) (agency : string) :
  is_Some (agency_results (for_each add_domain_result results (init hasher)).2
           !! agency)
  ↔ ∃ r, r ∈ results ∧ DomainResult.agency r = agency.
Proof.
  destruct (for_each_add_run results (init hasher) (init_wf hasher))
    as (w & -> & _ & _ & _ & _ & Hpres).
  cbn [snd]. rewrite Hpres. cbn [init agency_results]. rewrite lookup_empty.
  split; [intros [[? [=]]|?]; done|by right].
Qed.

(** X12. The tallies do not depend on the order in which the records come:
    two runs over the same records, in any two orders, end with the same
    mapping. *)
Theorem tallies_ignore_order
    (hasher : Hasher) (results1 results2 : list DomainResult.t) :
  results1 ≡ₚ results2 →
  agency_results (for_each add_domain_result results1 (init hasher)).2
  = agency_results (for_each add_domain_result results2 (init hasher)).2.
Proof.
  intros Hperm.
  destruct (for_each_add_run results1 (init hasher) (init_wf hasher))
    as (w1 & -> & Hwf1 & Hex1 & _ & Hcount1 & Hpres1).
  destruct (for_each_add_run results2 (init hasher) (init_wf hasher))
    as (w2 & -> & Hwf2 & Hex2 & _ & Hcount2 & Hpres2).
  specialize (Hex1 (init_exact hasher)). specialize (Hex2 (init_exact hasher)).
  cbn [snd]. apply map_eq. intros agency.
  assert (is_Some (agency_results w1 !! agency)
          ↔ is_Some (agency_results w2 !! agency)) as Hsame.
  { rewrite Hpres1, Hpres2. split; intros [?|(r & Hin & Hag)]; try by left.
    - right. exists r. by rewrite <- Hperm.
    - right. exists r. by rewrite Hperm. }
  destruct (agency_results w1 !! agency) as [info1|] eqn:E1;
    destruct (agency_results w2 !! agency) as [info2|] eqn:E2.
  - f_equal. apply map_eq. intros key.
    destruct (decide (key ∈ tail agency_csv_header)) as [Hk|Hk].
    + specialize (Hcount1 agency key Hk). specialize (Hcount2 agency key Hk).
      rewrite (tallied_Permutation _ _ _ _ Hperm) in Hcount1.
      unfold counter in Hcount1, Hcount2. rewrite E1 in Hcount1. rewrite E2 in Hcount2.
      cbn in Hcount1, Hcount2.
      destruct (Hwf1 _ _ E1 key Hk) as [n1 Hn1].
      destruct (Hwf2 _ _ E2 key Hk) as [n2 Hn2].
      rewrite Hn1 in Hcount1 |- *. rewrite Hn2 in Hcount2 |- *.
      cbn in Hcount1, Hcount2. f_equal. lia.
    + by rewrite (Hex1 _ _ _ E1 Hk), (Hex2 _ _ _ E2 Hk).
  - destruct Hsame as [Hs _]. destruct Hs as [? [=]]. by eexists.
  - destruct Hsame as [_ Hs]. destruct Hs as [? [=]]. by eexists.
  - done.
Qed.

Lemma add_domain_result_total w result :
  tallies_wf w →
  counter (add_domain_result result w).2 (DomainResult.agency result) "Total Domains"
  = counter w (DomainResult.agency result) "Total Domains" + 1.
Proof.
  intros Hwf. rewrite (add_domain_result_counter w result _ _ Hwf) by key_in_header.
  unfold counts. decide_keys. cbn. by rewrite bool_decide_eq_true_2.
Qed.

Lemma add_domain_result_published w result :
  tallies_wf w →
  counter (add_domain_result result w).2 (DomainResult.agency result)
    "Domains with Published VDP"
  = counter w (DomainResult.agency result) "Domains with Published VDP"
    + if DomainResult.vdp_present result then 1 else 0.
Proof.
  intros Hwf. rewrite (add_domain_result_counter w result _ _ Hwf) by key_in_header.
  unfold counts. decide_keys. cbn. by rewrite bool_decide_eq_true_2.
Qed.

(** The tables after a call depend on the tables before it and on
    nothing else in the world. *)
Lemma add_domain_result_tables (wa wb : World Hasher) result :
  tallies_wf wa →
  agency_results wa = agency_results wb → domain_results wa = domain_results wb →
  agency_results (add_domain_result result wa).2
  = agency_results (add_domain_result result wb).2
  ∧ domain_results (add_domain_result result wa).2
    = domain_results (add_domain_result result wb).2.
Proof.
  intros Hwfa Hag Hrows.
  assert (tallies_wf wb) as Hwfb.
  { intros a info. rewrite <- Hag. apply Hwfa. }
  rewrite (add_domain_result_run _ _ Hwfa), (add_domain_result_run _ _ Hwfb).
  cbn [snd agency_results domain_results]. unfold tally. by rewrite Hag, Hrows.
Qed.

Lemma for_each_add_tables (results : list DomainResult.t) (wa wb : World Hasher) :
  tallies_wf wa →
  agency_results wa = agency_results wb → domain_results wa = domain_results wb →
  agency_results (for_each add_domain_result results wa).2
  = agency_results (for_each add_domain_result results wb).2
  ∧ domain_results (for_each add_domain_result results wa).2
    = domain_results (for_each add_domain_result results wb).2.
Proof.
  revert wa wb. induction results as [|r results IH]; intros wa wb Hwfa Hag Hrows.
  - done.
  - assert (tallies_wf wb) as Hwfb.
    { intros a info. rewrite <- Hag. apply Hwfa. }
    destruct (add_domain_result_tables wa wb r Hwfa Hag Hrows) as [Hag1 Hrows1].
    pose proof (add_domain_result_ok wa r Hwfa) as Hoka.
    pose proof (add_domain_result_ok wb r Hwfb) as Hokb.
    pose proof (add_domain_result_wf wa r Hwfa) as Hwfa1.
    destruct (add_domain_result r wa) as [resa wa1] eqn:Ea.
    destruct (add_domain_result r wb) as [resb wb1] eqn:Eb.
    cbn in Hoka, Hokb, Hag1, Hrows1, Hwfa1. subst resa resb.
    rewrite (for_each_cons _ _ _ _ _ Ea), (for_each_cons _ _ _ _ _ Eb).
    by apply IH.
Qed.

End AggregatorFacts.

(** ** Sorting by key *)

Lemma insert_by_key_Permutation {A} (k : string) (x : A) (l : list (string * A)) :
  insert_by_key k x l ≡ₚ (k, x) :: l.
Proof.
  induction l as [|[k' y] l IH]; cbn [insert_by_key]; [done|].
  destruct (String.leb k k'); [done|]. by rewrite IH, Permutation_swap.
Qed.

Lemma sort_by_key_Permutation {A} (l : list (string * A)) : sort_by_key l ≡ₚ l.
Proof.
  induction l as [|[k x] l IH]; [done|].
  unfold sort_by_key in *. cbn [foldr fst snd].
  by rewrite insert_by_key_Permutation, IH.
Qed.

Lemma insert_by_key_Sorted {A} (k : string) (x : A) (l : list (string * A)) :
  Sorted key_le l → Sorted key_le (insert_by_key k x l).
Proof.
  induction l as [|[k' y] l IH]; intros Hs; cbn [insert_by_key].
  - repeat constructor.
  - destruct (String.leb k k') eqn:Hle.
    + constructor; [done|]. by constructor.
    + apply Sorted_inv in Hs as [Hs Hhd]. constructor; [by apply IH|].
      assert (String.leb k' k = true) as Hge.
      { destruct (String.leb_total k k'); congruence. }
      destruct l as [|[k'' z] l]; cbn [insert_by_key]; [by constructor|].
      destruct (String.leb k k''); constructor; [done|].
      by apply HdRel_inv in Hhd.
Qed.

Lemma sort_by_key_Sorted {A} (l : list (string * A)) : Sorted key_le (sort_by_key l).
Proof.
  induction l as [|[k x] l IH]; [constructor|].
  unfold sort_by_key in *. cbn [foldr fst snd]. by apply insert_by_key_Sorted.
Qed.

(** Sorting is stable on what is in order already: a list whose keys do
    not decrease is left as it is, equal keys included. *)
Lemma sort_by_key_sorted_input {A} (l : list (string * A)) :
  Sorted key_le l → sort_by_key l = l.
Proof.
  induction l as [|[k x] l IH]; intros Hs; [done|].
  apply Sorted_inv in Hs as [Hs Hhd].
  unfold sort_by_key in *. cbn [foldr fst snd]. rewrite (IH Hs).
  destruct l as [|[k' y] l]; [done|]. cbn [insert_by_key].
  apply HdRel_inv in Hhd. unfold key_le in Hhd. cbn in Hhd. by rewrite Hhd.
Qed.

(** Whatever the input, the sorted list holds the same elements and its
    keys do not decrease. *)
Lemma sort_by_key_sorts {A} (l : list (string * A)) :
  sort_by_key l ≡ₚ l ∧ Sorted key_le (sort_by_key l).
Proof. split; [apply sort_by_key_Permutation|apply sort_by_key_Sorted]. Qed.

(** ** Processing the rows of the input *)

Section ScanFacts.

Variable Hasher : Type.
Variable hash_url : string → bool → Hasher → (exn + UrlResult.t) * Hasher.
Variable urlparse : string → exn + ParseResult.t.
Implicit Types (w : World Hasher) (domain_info : gmap string string).

(** A row that has its four columns and a domain name whose URL
    [urlparse] accepts. *)
Abbreviation ready :=
  (λ d : gmap string string,
     has_columns d ∧ accepts urlparse (column d "Domain Name") = true).

Ltac run_process :=
  unfold process_domain, domain_info_getitem, mbind, mret, mthrow,
    M_bind, M_ret, M_throw.

Lemma ready_rows (rows : list (gmap string string)) :
  Forall has_columns rows →
  Forall (λ d, accepts urlparse (column d "Domain Name") = true) rows →
  Forall ready rows.
Proof. intros Hcols Hacc. apply Forall_and. by split. Qed.

Lemma accepts_parsed (domain : string) :
  accepts urlparse domain = true →
  ∃ url, urlparse ("https://" +:+ domain +:+ "/vulnerability-disclosure-policy")
         = inr url.
Proof. unfold accepts. destruct (urlparse _) as [e|url]; [done|by exists url]. Qed.

(** X13. A row without a "Domain Name" raises [KeyError] before anything is
    done: no call on the hasher, no log record, no row, no tally. *)
Theorem process_domain_without_domain_name domain_info w :
  domain_info !! "Domain Name" = None →
  process_domain hash_url urlparse domain_info w
  = (inl (Raise (OtherException "KeyError") "'Domain Name'"), w).
Proof. intros Hname. run_process. by rewrite Hname. Qed.

(** X25. A row whose domain name gives a URL that [urlparse] rejects
    makes [process_domain] raise what [urlparse] raised, before any call
    on the hasher: nothing is fetched, logged, recorded or tallied. *)
Theorem process_domain_rejected_domain domain_info w (name : string) (e : exn) :
  domain_info !! "Domain Name" = Some name →
  urlparse ("https://" +:+ name +:+ "/vulnerability-disclosure-policy") = inl e →
  process_domain hash_url urlparse domain_info w = (inl e, w).
Proof.
  intros Hname Hparse. run_process. rewrite Hname. cbv beta iota.
  by rewrite (check_for_vdp_unparsed _ hash_url urlparse name w e Hparse).
Qed.

(** X14. A row with a "Domain Name" whose URL [urlparse] accepts, that
    lacks one of the three other columns, raises [KeyError] only after the
    check has run: the domain was fetched, yet it gets no row and no
    tally. *)
Theorem process_domain_missing_column domain_info w (name : string) :
  domain_info !! "Domain Name" = Some name →
  accepts urlparse name = true →
  domain_info !! "Agency" = None
  ∨ domain_info !! "Organization" = None
  ∨ domain_info !! "Security Contact Email" = None →
  ∃ (key : string) (w' : World Hasher),
    process_domain hash_url urlparse domain_info w
    = (inl (Raise (OtherException "KeyError") ("'" +:+ key +:+ "'")), w')
    ∧ domain_info !! key = None
    ∧ w' = (check_for_vdp hash_url urlparse name w).2
    ∧ agency_results w' = agency_results w
    ∧ domain_results w' = domain_results w
    ∧ (length (fetches w) < length (fetches w'))%nat.
Proof.
  intros Hname [url0 Hparse]%accepts_parsed Hmissing.
  destruct (check_for_vdp_returns _ hash_url urlparse name w url0 Hparse)
    as ([[[url redirect] present] h] & w1 & f & tr & Hrun & Hag & Hrows & Htr).
  assert (length (fetches w) < length (fetches w1))%nat as Hlen.
  { rewrite Htr, length_app. cbn. lia. }
  run_process. rewrite Hname. cbv beta iota. rewrite Hrun. cbv beta iota.
  destruct (domain_info !! "Agency") as [a|] eqn:Ea.
  2: { by exists "Agency", w1. }
  destruct (domain_info !! "Organization") as [o|] eqn:Eo.
  2: { by exists "Organization", w1. }
  destruct (domain_info !! "Security Contact Email") as [c|] eqn:Ec.
  2: { by exists "Security Contact Email", w1. }
  by destruct Hmissing as [?|[?|?]].
Qed.

(** What one row does when its columns are there. *)
Lemma process_domain_run domain_info w r0 :
  from_row domain_info r0 → accepts urlparse (DomainResult.domain r0) = true →
  tallies_wf w →
  ∃ (url : string) (redirect present : bool) (h : string) (w1 : World Hasher),
    check_for_vdp hash_url urlparse (DomainResult.domain r0) w
    = (inr (url, redirect, present, h), w1)
    ∧ agency_results w1 = agency_results w
    ∧ domain_results w1 = domain_results w
    ∧ process_domain hash_url urlparse domain_info w
      = add_domain_result
          (DomainResult.Make (DomainResult.domain r0) (DomainResult.agency r0)
             (DomainResult.organization r0) (DomainResult.security_contact r0)
             url redirect present h) w1.
Proof.
  intros (Hname & Ha & Ho & Hc) [url0 Hparse]%accepts_parsed Hwf.
  destruct (check_for_vdp_returns _ hash_url urlparse (DomainResult.domain r0) w
              url0 Hparse)
    as ([[[url redirect] present] h] & w1 & f & tr & Hrun & Hag & Hrows & Htr).
  exists url, redirect, present, h, w1. repeat split; try done.
  run_process. rewrite Hname. cbv beta iota. rewrite Hrun. cbv beta iota.
  by rewrite Ha, Ho, Hc.
Qed.

(** X15. A row with its four columns and a domain name whose URL
    [urlparse] accepts never raises, whatever the hasher does: it adds one
    row, which carries the four columns and the outcome of the check, and
    counts the domain for the agency of the row. *)
Theorem process_domain_records_the_check
    domain_info w (name agency organization contact : string) :
  domain_info !! "Domain Name" = Some name →
  domain_info !! "Agency" = Some agency →
  domain_info !! "Organization" = Some organization →
  domain_info !! "Security Contact Email" = Some contact →
  accepts urlparse name = true →
  tallies_wf w →
  ∃ (url : string) (redirect present : bool) (h : string) (w' : World Hasher),
    (check_for_vdp hash_url urlparse name w).1 = inr (url, redirect, present, h)
    ∧ process_domain hash_url urlparse domain_info w = (inr (), w')
    ∧ domain_results w'
      = domain_results w
        ++ [[("Domain", PyStr name);
             ("Agency", PyStr agency);
             ("Organization", PyStr organization);
             ("Security Contact Email", PyStr contact);
             ("Visited URL", PyStr url);
             ("Was it Redirected", PyBool redirect);
             ("VDP is Published", PyBool present);
             ("VDP Hash", PyStr h)]]
    ∧ counter w' agency "Total Domains" = counter w agency "Total Domains" + 1
    ∧ counter w' agency "Domains with Published VDP"
      = counter w agency "Domains with Published VDP" + (if present then 1 else 0)
    ∧ fetches w' = fetches (check_for_vdp hash_url urlparse name w).2
    ∧ logged w' = logged (check_for_vdp hash_url urlparse name w).2
    ∧ tallies_wf w'.
Proof.
  intros Hname Ha Ho Hc Hacc Hwf.
  destruct (process_domain_run domain_info w
              (DomainResult.Make name agency organization contact "" false false ""))
    as (url & redirect & present & h & w1 & Hrun & Hag & Hrows & Hproc);
    [done..|].
  cbn [DomainResult.domain DomainResult.agency DomainResult.organization
       DomainResult.security_contact] in Hrun, Hproc.
  assert (tallies_wf w1) as Hwf1.
  { intros a info. rewrite Hag. apply Hwf. }
  set (r := DomainResult.Make name agency organization contact url redirect present h)
    in Hproc.
  exists url, redirect, present, h, (add_domain_result r w1).2.
  rewrite Hrun. cbn [fst snd]. split; [done|]. split.
  { rewrite Hproc. pose proof (add_domain_result_ok _ w1 r Hwf1) as Hok.
    destruct (add_domain_result r w1) as [res w2]. cbn in Hok. by subst res. }
  split; [by rewrite (add_domain_result_rows _ w1 r Hwf1), Hrows|].
  assert (∀ key, counter w1 agency key = counter w agency key) as Hsame.
  { intros key. unfold counter. by rewrite Hag. }
  split; [|split].
  - rewrite <- Hsame. exact (add_domain_result_total _ w1 r Hwf1).
  - rewrite <- Hsame. exact (add_domain_result_published _ w1 r Hwf1).
  - destruct (add_domain_result_outside _ w1 r Hwf1) as (_ & Hlog & Hfetch).
    split; [done|]. split; [done|]. by apply add_domain_result_wf.
Qed.

(** *** The loop of [main] *)

Lemma domain_info_getitem_Some domain_info key (v : string) w :
  domain_info !! key = Some v →
  domain_info_getitem Hasher domain_info key w = (inr v, w).
Proof. intros E. unfold domain_info_getitem. by rewrite E. Qed.

Lemma domain_info_getitem_None domain_info key w :
  domain_info !! key = None →
  domain_info_getitem Hasher domain_info key w
  = (inl (Raise (OtherException "KeyError") ("'" +:+ key +:+ "'")), w).
Proof. intros E. unfold domain_info_getitem. by rewrite E. Qed.

Lemma map_M_names (rows : list (gmap string string)) w :
  Forall (λ d, is_Some (d !! "Domain Name")) rows →
  ∃ keys : list string,
    map_M (λ d, domain_info_getitem Hasher d "Domain Name") rows w = (inr keys, w)
    ∧ Forall2 (λ d k, d !! "Domain Name" = Some k) rows keys.
Proof.
  induction 1 as [|d rows [k Hk] _ (keys & Hrun & Hkeys)].
  - by exists [].
  - exists (k :: keys). split; [|by constructor].
    cbn [map_M]. unfold mbind, M_bind.
    by rewrite (domain_info_getitem_Some _ _ _ _ Hk), Hrun.
Qed.

Lemma map_M_missing (rows : list (gmap string string)) w :
  Exists (λ d, d !! "Domain Name" = None) rows →
  map_M (λ d, domain_info_getitem Hasher d "Domain Name") rows w
  = (inl (Raise (OtherException "KeyError") "'Domain Name'"), w).
Proof.
  induction 1 as [d rows Hd|d rows _ IH]; cbn [map_M]; unfold mbind, M_bind.
  - by rewrite (domain_info_getitem_None _ _ _ Hd).
  - destruct (d !! "Domain Name") as [k|] eqn:Hk.
    + by rewrite (domain_info_getitem_Some _ _ _ _ Hk), IH.
    + by rewrite (domain_info_getitem_None _ _ _ Hk).
Qed.

Lemma main_body_run (total : nat) (items : list (nat * gmap string string)) w :
  Forall (λ item, ready item.2) items → tallies_wf w →
  ∃ (w' : World Hasher) (results : list DomainResult.t),
    for_each (main_body hash_url urlparse total) items w = (inr (), w')
    ∧ Forall2 from_row items.*2 results
    ∧ agency_results w'
      = agency_results (for_each add_domain_result results w).2
    ∧ domain_results w'
      = domain_results (for_each add_domain_result results w).2.
Proof.
  intros Hcols. revert w.
  induction Hcols as [|[i d] items Hd _ IH]; intros w Hwf.
  - by exists w, [].
  - destruct Hd as (([name Hname] & [a Ha] & [o Ho] & [c Hc]) & Hacc).
    cbn [snd] in *. unfold column in Hacc. rewrite Hname in Hacc. cbn in Hacc.
    set (wl := MkWorld (_hasher w) (agency_results w) (domain_results w)
                 (logged w
                  ++ [Log INFO ("Processing '" +:+ name +:+ "' (" +:+ pretty i
                                +:+ "/" +:+ pretty total +:+ ")...")])
                 (fetches w)).
    assert (tallies_wf wl) as Hwfl by exact Hwf.
    destruct (process_domain_run d wl
                (DomainResult.Make name a o c "" false false ""))
      as (url & redirect & present & h & w1 & Hrun & Hag & Hrows & Hproc);
      [done..|].
    cbn [DomainResult.domain DomainResult.agency DomainResult.organization
         DomainResult.security_contact] in Hrun, Hproc.
    set (r := DomainResult.Make name a o c url redirect present h) in Hproc.
    assert (tallies_wf w1) as Hwf1.
    { intros a' info. rewrite Hag. apply Hwf. }
    pose proof (add_domain_result_ok _ w1 r Hwf1) as Hok.
    pose proof (add_domain_result_wf _ w1 r Hwf1) as Hwf2.
    destruct (add_domain_result r w1) as [res w2] eqn:Eadd.
    cbn in Hok, Hwf2. subst res.
    destruct (IH w2 Hwf2) as (w' & results & Hrest & Hfrom & Hag' & Hrows').
    exists w', (r :: results). split; [|split].
    + erewrite for_each_cons; [exact Hrest|].
      unfold main_body, mbind, M_bind. cbn [fst snd].
      rewrite (domain_info_getitem_Some _ _ _ _ Hname). unfold logging.
      fold wl. by rewrite Hproc.
    + constructor; [by repeat split|exact Hfrom].
    + pose proof (add_domain_result_ok _ w r Hwf) as Hokw.
      pose proof (add_domain_result_wf _ w r Hwf) as Hwfw.
      destruct (add_domain_result_tables _ w1 w r Hwf1) as [Hag2 Hrows2]; [done..|].
      destruct (add_domain_result r w) as [res w3] eqn:Eaddw.
      cbn in Hokw, Hwfw, Hag2, Hrows2. subst res.
      rewrite Eadd in Hag2, Hrows2. cbn in Hag2, Hrows2.
      rewrite (for_each_cons _ _ _ _ _ _ Eaddw).
      destruct (for_each_add_tables _ results w2 w3 Hwf2 Hag2 Hrows2) as [<- <-].
      by split.
Qed.

Lemma Sorted_keys {A} (l : list (string * A)) :
  Sorted key_le l → Sorted (λ a b, String.leb a b = true) l.*1.
Proof.
  induction 1 as [|p l _ IH Hhd]; cbn; constructor; [done|].
  destruct Hhd; cbn; by constructor.
Qed.

Lemma keyed_rows_names (ps : list (string * gmap string string))
    (results : list DomainResult.t) :
  Forall (λ p, p.2 !! "Domain Name" = Some p.1) ps →
  Forall2 from_row ps.*2 results →
  ps.*1 = DomainResult.domain <$> results.
Proof.
  intros Hps. revert results.
  induction Hps as [|[k d] ps Hk _ IH]; intros results Hfrom.
  - by apply Forall2_nil_inv_l in Hfrom as ->.
  - apply Forall2_cons_inv_l in Hfrom as (r & results' & (Hname & _) & Hfrom & ->).
    cbn in *. rewrite Hk in Hname. injection Hname as ->. f_equal. by apply IH.
Qed.

Lemma zip_keys (rows : list (gmap string string)) (keys : list string) :
  Forall2 (λ d k, d !! "Domain Name" = Some k) rows keys →
  (zip keys rows).*1 = keys
  ∧ (zip keys rows).*2 = rows
  ∧ Forall (λ p, p.2 !! "Domain Name" = Some p.1) (zip keys rows).
Proof.
  induction 1 as [|d k rows keys Hk _ (IH1 & IH2 & IH3)]; [done|].
  cbn. rewrite IH1, IH2. repeat split. by constructor.
Qed.

(** The run of the loop of [main] on rows that have their columns. *)
Lemma main_loop_run (hasher : Hasher) (rows : list (gmap string string)) :
  Forall ready rows →
  ∃ (w' : World Hasher) (keys : list string) (results : list DomainResult.t),
    main_loop hash_url urlparse rows (init hasher) = (inr (), w')
    ∧ Forall2 (λ d k, d !! "Domain Name" = Some k) rows keys
    ∧ Forall2 from_row (sort_by_key (zip keys rows)).*2 results
    ∧ (sort_by_key (zip keys rows)).*1 = DomainResult.domain <$> results
    ∧ agency_results w'
      = agency_results (for_each add_domain_result results (init hasher)).2
    ∧ domain_results w'
      = domain_results (for_each add_domain_result results (init hasher)).2.
Proof.
  intros Hcols.
  destruct (map_M_names rows (init hasher)) as (keys & Hkeys & Hnames).
  { eapply Forall_impl; [exact Hcols|]. by intros d ((? & _) & _). }
  destruct (zip_keys rows keys Hnames) as (Hfst & Hsnd & Hkeyed).
  set (ordered := sort_by_key (zip keys rows)).
  assert (ordered ≡ₚ zip keys rows) as Hperm by apply sort_by_key_Permutation.
  assert (Forall ready ordered.*2) as Hcols'.
  { rewrite Hperm, Hsnd. exact Hcols. }
  assert ((enumerate_from_1 ordered.*2).*2 = ordered.*2) as Hitems.
  { unfold enumerate_from_1. apply snd_zip. by rewrite length_seq. }
  destruct (main_body_run (length rows) (enumerate_from_1 ordered.*2)
              (init hasher)) as (w' & results & Hrun & Hfrom & Hag & Hrows).
  { rewrite <- Hitems, Forall_fmap in Hcols'. exact Hcols'. }
  { apply init_wf. }
  rewrite Hitems in Hfrom.
  exists w', keys, results. split; [|split; [done|split; [done|split; [|done]]]].
  - unfold main_loop, sorted_by_domain_name, mbind, M_bind, mret, M_ret.
    by rewrite Hkeys.
  - apply keyed_rows_names; [|done].
    by rewrite (sort_by_key_Permutation (zip keys rows)).
Qed.

Lemma filter_length_Permutation {A} (f : A → bool) (l1 l2 : list A) :
  l1 ≡ₚ l2 → length (List.filter f l1) = length (List.filter f l2).
Proof.
  induction 1 as [|x l1 l2 _ IH|x y l|l1 l2 l3 _ IH1 _ IH2]; cbn [List.filter].
  - done.
  - destruct (f x); cbn [length]; by rewrite IH.
  - by destruct (f x), (f y).
  - by rewrite IH1.
Qed.

Lemma filter_length_Forall2 {A B} (R : A → B → Prop) (f : A → bool) (g : B → bool)
    (l1 : list A) (l2 : list B) :
  (∀ x y, R x y → f x = g y) → Forall2 R l1 l2 →
  length (List.filter f l1) = length (List.filter g l2).
Proof.
  intros Hfg. induction 1 as [|x y l1 l2 Hxy _ IH]; cbn [List.filter]; [done|].
  rewrite (Hfg x y Hxy). destruct (g y); cbn [length]; by rewrite IH.
Qed.

Lemma Sorted_zip_keys (rows : list (gmap string string)) (keys : list string) :
  length keys = length rows →
  Sorted (λ a b, String.leb a b = true) keys → Sorted key_le (zip keys rows).
Proof.
  intros Hlen Hs. revert rows Hlen.
  induction Hs as [|k keys _ IH Hhd]; intros [|d rows] Hlen;
    cbn in Hlen |- *; try discriminate Hlen; try (constructor; fail).
  constructor; [apply IH; by injection Hlen|].
  destruct Hhd as [|k' keys' Hle]; [constructor|].
  destruct rows; [done|]. cbn. by constructor.
Qed.

(** X16. When some row has no "Domain Name", [main] raises [KeyError] while
    taking the sort keys: no row is processed, not even those before the
    faulty one. *)
Theorem main_loop_without_domain_name (rows : list (gmap string string)) w :
  Exists (λ d, d !! "Domain Name" = None) rows →
  main_loop hash_url urlparse rows w
  = (inl (Raise (OtherException "KeyError") "'Domain Name'"), w).
Proof.
  intros Hmissing. unfold main_loop, sorted_by_domain_name, mbind, M_bind.
  by rewrite (map_M_missing rows w Hmissing).
Qed.

(** X17. For rows whose cells are strings: when every row has its four
    columns and a domain name whose URL [urlparse] accepts, [main] gets
    through the loop whatever the hasher does, and [domain_results] holds
    one row per input row, in ascending order of domain name. *)
Theorem main_loop_processes_in_name_order
    (hasher : Hasher) (rows : list (gmap string string)) :
  Forall has_columns rows →
  Forall (λ d, accepts urlparse (column d "Domain Name") = true) rows →
  ∃ (w' : World Hasher) (ordered : list (gmap string string))
    (results : list DomainResult.t),
    main_loop hash_url urlparse rows (init hasher) = (inr (), w')
    ∧ ordered ≡ₚ rows
    ∧ Forall2 from_row ordered results
    ∧ Sorted (λ a b, String.leb a b = true) (DomainResult.domain <$> results)
    ∧ domain_results w'
      = (λ r, zip domain_csv_header (DomainResult.fields r)) <$> results.
Proof.
  intros Hcols Hacc.
  destruct (main_loop_run hasher rows (ready_rows rows Hcols Hacc))
    as (w' & keys & results & Hrun & Hnames & Hfrom & Hdom & _ & Hrows).
  destruct (zip_keys rows keys Hnames) as (_ & Hsnd & _).
  exists w', (sort_by_key (zip keys rows)).*2, results.
  split; [done|]. split; [|split; [done|split]].
  - by rewrite (sort_by_key_Permutation (zip keys rows)), Hsnd.
  - rewrite <- Hdom. apply Sorted_keys, sort_by_key_Sorted.
  - rewrite Hrows.
    destruct (for_each_add_run _ results (init hasher) (init_wf _ hasher))
      as (w1 & -> & _ & _ & Hrows1 & _).
    exact Hrows1.
Qed.

(** X18. For rows whose cells are strings, each with its four columns and
    a domain name whose URL [urlparse] accepts: a file whose domain names
    do not decrease is processed in the order of the file, rows with the
    same name included. *)
Theorem main_loop_keeps_sorted_file_order
    (hasher : Hasher) (rows : list (gmap string string)) (keys : list string) :
  Forall has_columns rows →
  Forall (λ d, accepts urlparse (column d "Domain Name") = true) rows →
  Forall2 (λ d k, d !! "Domain Name" = Some k) rows keys →
  Sorted (λ a b, String.leb a b = true) keys →
  ∃ (w' : World Hasher) (results : list DomainResult.t),
    main_loop hash_url urlparse rows (init hasher) = (inr (), w')
    ∧ Forall2 from_row rows results
    ∧ domain_results w'
      = (λ r, zip domain_csv_header (DomainResult.fields r)) <$> results.
Proof.
  intros Hcols Hacc Hkeys Hsorted.
  destruct (main_loop_run hasher rows (ready_rows rows Hcols Hacc))
    as (w' & keys' & results & Hrun & Hnames & Hfrom & _ & _ & Hrows).
  assert (keys' = keys) as ->.
  { clear -Hkeys Hnames. revert keys' Hnames.
    induction Hkeys as [|d k rows keys Hk _ IH]; intros keys' Hnames.
    - by apply Forall2_nil_inv_l in Hnames.
    - apply Forall2_cons_inv_l in Hnames as (k' & keys'' & Hk' & Hnames & ->).
      rewrite Hk in Hk'. injection Hk' as <-. f_equal. by apply IH. }
  destruct (zip_keys rows keys Hnames) as (_ & Hsnd & _).
  rewrite sort_by_key_sorted_input, Hsnd in Hfrom.
  2: { apply Sorted_zip_keys; [|done]. symmetry. by eapply Forall2_length. }
  exists w', results. split; [done|]. split; [done|].
  rewrite Hrows.
  destruct (for_each_add_run _ results (init hasher) (init_wf _ hasher))
    as (w1 & -> & _ & _ & Hrows1 & _).
  exact Hrows1.
Qed.

(** X19. For rows whose cells are strings, each with its four columns and
    a domain name whose URL [urlparse] accepts: four of the five counters
    are decided by the input file alone. For every agency they count the
    rows of that agency, those with a security contact that is neither
    empty nor "(blank)", those with an organization, and those whose
    organization is the agency. Neither the hasher nor the order of the
    rows has a say. *)
Theorem main_loop_tallies_from_file
    (hasher : Hasher) (rows : list (gmap string string)) (agency : string) :
  Forall has_columns rows →
  Forall (λ d, accepts urlparse (column d "Domain Name") = true) rows →
  ∃ w' : World Hasher,
    main_loop hash_url urlparse rows (init hasher) = (inr (), w')
    ∧ counter w' agency "Total Domains"
      = Z.of_nat (length (List.filter
           (λ d, bool_decide (column d "Agency" = agency)) rows))
    ∧ counter w' agency "Domains with Security Contact Listed"
      = Z.of_nat (length (List.filter
           (λ d, bool_decide (column d "Agency" = agency)
                 && bool_decide (column d "Security Contact Email" ≠ ""
                                 ∧ column d "Security Contact Email" ≠ "(blank)"))
           rows))
    ∧ counter w' agency "Domains with Organization Listed"
      = Z.of_nat (length (List.filter
           (λ d, bool_decide (column d "Agency" = agency)
                 && bool_decide (column d "Organization" ≠ ""))
           rows))
    ∧ counter w' agency "Domains with Matching Organization and Agency"
      = Z.of_nat (length (List.filter
           (λ d, bool_decide (column d "Agency" = agency)
                 && bool_decide (column d "Organization" = agency))
           rows)).
Proof.
  intros Hcols Hacc.
  destruct (main_loop_run hasher rows (ready_rows rows Hcols Hacc))
    as (w' & keys & results & Hrun & Hnames & Hfrom & _ & Hag & _).
  destruct (zip_keys rows keys Hnames) as (_ & Hsnd & _).
  assert ((sort_by_key (zip keys rows)).*2 ≡ₚ rows) as Hperm.
  { by rewrite (sort_by_key_Permutation (zip keys rows)), Hsnd. }
  exists w'. split; [done|].
  assert (∀ key (p : gmap string string → bool),
            key ∈ tail agency_csv_header →
            (∀ d r, from_row d r →
                    p d = (bool_decide (DomainResult.agency r = agency)
                           && counts key r)) →
            counter w' agency key = Z.of_nat (length (List.filter p rows))) as Hc.
  { intros key p Hk Hp. unfold counter. rewrite Hag.
    destruct (for_each_add_run _ results (init hasher) (init_wf _ hasher))
      as (w1 & -> & _ & _ & _ & Hcount & _).
    cbn [snd]. fold (counter w1 agency key).
    rewrite (Hcount agency key Hk), counter_init, Z.add_0_l. unfold tallied.
    f_equal. rewrite <- (filter_length_Permutation p _ _ Hperm).
    symmetry. by eapply filter_length_Forall2. }
  assert (∀ r : DomainResult.t,
            truthy (DomainResult.security_contact r)
            && negb (bool_decide (DomainResult.security_contact r
                                  = MISSING_SECURITY_CONTACT))
            = bool_decide (DomainResult.security_contact r ≠ ""
                           ∧ DomainResult.security_contact r ≠ "(blank)")) as Hsc.
  { intros r. rewrite truthy_nonempty. unfold MISSING_SECURITY_CONTACT.
    repeat case_bool_decide; cbn; try done; exfalso; intuition congruence. }
  assert (∀ k, k ∈ tail agency_csv_header ↔
               k = "Total Domains" ∨ k = "Domains with Security Contact Listed"
               ∨ k = "Domains with Organization Listed"
               ∨ k = "Domains with Matching Organization and Agency"
               ∨ k = "Domains with Published VDP") as Hkeys.
  { intros k. unfold agency_csv_header. cbn [tail].
    rewrite !elem_of_cons, elem_of_nil. tauto. }
  split; [|split; [|split]]; apply Hc; try (apply Hkeys; tauto).
  all: intros d r (_ & Ha & Ho & Hcon); unfold column, counts.
  all: rewrite ?Ha, ?Ho, ?Hcon; cbn [default]; unfold id.
  all: repeat match goal with
         | |- context [bool_decide (?a = ?b)] =>
             let v := eval vm_compute in (bool_decide (a = b)) in
             match v with true => idtac | false => idtac end;
             change (bool_decide (a = b)) with v
         end; cbn [orb andb]; rewrite ?andb_false_r, ?orb_false_r, ?andb_true_r.
  - done.
  - by rewrite Hsc.
  - by rewrite truthy_nonempty.
  - destruct (decide (DomainResult.agency r = agency)) as [->|Hne].
    + rewrite bool_decide_eq_true_2 by done. cbn [andb].
      repeat case_bool_decide; congruence.
    + by rewrite bool_decide_eq_false_2.
Qed.

(** *** The progress log *)

Lemma main_body_step (total i : nat) domain_info w :
  ready domain_info → tallies_wf w →
  ∃ w2 : World Hasher,
    main_body hash_url urlparse total (i, domain_info) w = (inr (), w2)
    ∧ tallies_wf w2
    ∧ List.filter is_info (logged w2)
      = List.filter is_info (logged w)
        ++ [progress (column domain_info "Domain Name") i total].
Proof.
  intros (([name Hname] & [a Ha] & [o Ho] & [c Hc]) & Hacc) Hwf.
  unfold column in Hacc. rewrite Hname in Hacc. cbn in Hacc.
  set (wl := MkWorld (_hasher w) (agency_results w) (domain_results w)
               (logged w ++ [progress name i total]) (fetches w)).
  assert (tallies_wf wl) as Hwfl by exact Hwf.
  destruct (process_domain_run domain_info wl
              (DomainResult.Make name a o c "" false false ""))
    as (url & redirect & present & h & w1 & Hrun & Hag & Hrows & Hproc);
    [done..|].
  cbn [DomainResult.domain DomainResult.agency DomainResult.organization
       DomainResult.security_contact] in Hrun, Hproc.
  set (r := DomainResult.Make name a o c url redirect present h) in Hproc.
  assert (tallies_wf w1) as Hwf1.
  { intros a' info. rewrite Hag. apply Hwf. }
  pose proof (add_domain_result_ok _ w1 r Hwf1) as Hok.
  pose proof (add_domain_result_wf _ w1 r Hwf1) as Hwf2.
  destruct (add_domain_result_outside _ w1 r Hwf1) as (_ & Hlog & _).
  pose proof (check_for_vdp_logs_no_info _ hash_url urlparse name wl) as Hinfo.
  rewrite Hrun in Hinfo. cbn [snd] in Hinfo.
  destruct (add_domain_result r w1) as [res w2] eqn:Eadd.
  cbn in Hok, Hwf2, Hlog. subst res.
  exists w2. split; [|split; [done|]].
  - unfold main_body, mbind, M_bind. cbn [fst snd].
    rewrite (domain_info_getitem_Some _ _ _ _ Hname). unfold logging.
    fold (progress name i total). fold wl. by rewrite Hproc.
  - rewrite Hlog, Hinfo. unfold wl. cbn [logged].
    rewrite List.filter_app. unfold column. by rewrite Hname.
Qed.

Lemma main_body_log (total : nat) (items : list (nat * gmap string string)) w :
  Forall (λ item, ready item.2) items → tallies_wf w →
  List.filter is_info (logged (for_each (main_body hash_url urlparse total) items w).2)
  = List.filter is_info (logged w)
    ++ ((λ item, progress (column item.2 "Domain Name") item.1 total) <$> items).
Proof.
  intros Hcols. revert w.
  induction Hcols as [|[i d] items Hd _ IH]; intros w Hwf.
  - cbn. by rewrite app_nil_r.
  - destruct (main_body_step total i d w Hd Hwf) as (w2 & Hstep & Hwf2 & Hlog).
    rewrite (for_each_cons _ _ _ _ _ _ Hstep), (IH w2 Hwf2), Hlog.
    by rewrite <- app_assoc.
Qed.

Lemma enumerate_keyed (total start : nat) (ps : list (string * gmap string string)) :
  Forall (λ p, p.2 !! "Domain Name" = Some p.1) ps →
  (λ item, progress (column item.2 "Domain Name") item.1 total)
    <$> zip (seq start (length ps.*2)) ps.*2
  = imap (λ i name, progress name (start + i) total) ps.*1.
Proof.
  intros Hps. revert start.
  induction Hps as [|[k d] ps Hk _ IH]; intros start; [done|].
  cbn [fmap list_fmap length seq zip zip_with imap fst snd] in *.
  unfold column at 1. rewrite Hk. cbn [default]. rewrite Nat.add_0_r.
  f_equal. rewrite IH. apply imap_ext. intros i name _. cbn.
  by rewrite Nat.add_succ_r.
Qed.

(** X24. The progress log of [main], for rows whose cells are strings,
    each with its four columns and a domain name whose URL [urlparse]
    accepts: one INFO record per row, in ascending order of domain name,
    numbered from 1 out of the number of input rows. Nothing else is
    logged at that level. *)
Theorem main_loop_progress_log (hasher : Hasher) (rows : list (gmap string string)) :
  Forall has_columns rows →
  Forall (λ d, accepts urlparse (column d "Domain Name") = true) rows →
  ∃ names : list string,
    names ≡ₚ (λ d, column d "Domain Name") <$> rows
    ∧ Sorted (λ a b, String.leb a b = true) names
    ∧ List.filter is_info (logged (main_loop hash_url urlparse rows (init hasher)).2)
      = imap (λ i name,
                Log INFO ("Processing '" +:+ name +:+ "' (" +:+ pretty (S i) +:+ "/"
                          +:+ pretty (length rows) +:+ ")..."))
             names.
Proof.
  intros Hcols Hacc.
  pose proof (ready_rows rows Hcols Hacc) as Hready.
  destruct (map_M_names rows (init hasher)) as (keys & Hkeys & Hnames).
  { eapply Forall_impl; [exact Hcols|]. by intros d (? & _). }
  destruct (zip_keys rows keys Hnames) as (Hfst & Hsnd & Hkeyed).
  pose proof (sort_by_key_Permutation (zip keys rows)) as Hperm.
  set (ordered := sort_by_key (zip keys rows)) in *.
  exists ordered.*1. split; [|split].
  - rewrite Hperm, Hfst. clear -Hnames.
    induction Hnames as [|d k rows keys Hk _ IH]; [done|].
    cbn. unfold column at 1. rewrite Hk. cbn. by rewrite IH.
  - apply Sorted_keys, sort_by_key_Sorted.
  - unfold main_loop, sorted_by_domain_name, mbind, M_bind, mret, M_ret.
    rewrite Hkeys. fold ordered. unfold enumerate_from_1.
    rewrite main_body_log.
    + cbn [init logged List.filter app]. rewrite enumerate_keyed.
      * apply imap_ext. by intros i name _.
      * by rewrite Hperm.
    + assert (Forall ready (zip (seq 1 (length ordered.*2)) ordered.*2).*2)
        as Hitems.
      { rewrite snd_zip by (by rewrite length_seq). by rewrite Hperm, Hsnd. }
      rewrite Forall_fmap in Hitems. exact Hitems.
    + apply init_wf.
Qed.

End ScanFacts.

(** ** The version file *)

Lemma append_cons (c : ascii) (a b : string) : String c a +:+ b = String c (a +:+ b).
Proof. reflexivity. Qed.

Lemma append_empty_r (s : string) : s +:+ "" = s.
Proof. induction s as [|c s IH]; [done|]. by rewrite append_cons, IH. Qed.

Lemma append_assoc (a b c : string) : a +:+ b +:+ c = (a +:+ b) +:+ c.
Proof. induction a as [|x a IH]; [done|]. by rewrite !append_cons, IH. Qed.

Lemma prefix_append (a b : string) : String.prefix a (a +:+ b) = true.
Proof.
  induction a as [|c a IH].
  - change ("" +:+ b) with b. by destruct b.
  - rewrite append_cons. cbn [String.prefix]. by destruct (ascii_dec c c).
Qed.

Lemma contains_app (c : ascii) (a b : string) :
  contains c (a +:+ b) = contains c a || contains c b.
Proof.
  induction a as [|c' a IH]; [done|].
  rewrite append_cons. cbn [contains]. by rewrite IH, orb_assoc.
Qed.

Lemma split_cons (sep : ascii) (s : string) : ∃ piece pieces, split sep s = piece :: pieces.
Proof.
  induction s as [|c s (piece & pieces & IH)]; cbn [split]; [by eexists _, _|].
  destruct (Ascii.eqb c sep); [by eexists _, _|]. rewrite IH. by eexists _, _.
Qed.

Lemma split_no_sep (sep : ascii) (a : string) :
  contains sep a = false → split sep a = [a].
Proof.
  induction a as [|c a IH]; cbn [split contains]; [done|]. intros Hc.
  apply orb_false_iff in Hc as [Hc1 Hc2]. by rewrite Hc1, (IH Hc2).
Qed.

Lemma split_app (sep : ascii) (a b : string) :
  contains sep a = false →
  split sep (a +:+ String sep b) = a :: split sep b.
Proof.
  induction a as [|c a IH]; intros Hc.
  - change ("" +:+ String sep b) with (String sep b). cbn [split].
    by rewrite Ascii.eqb_refl.
  - rewrite append_cons. cbn [split contains] in *.
    apply orb_false_iff in Hc as [Hc1 Hc2]. by rewrite Hc1, (IH Hc2).
Qed.

(** The piece after the first separator ends at the next one, or at the
    end of the string. *)
Lemma split_second (sep : ascii) (a v rest : string) :
  contains sep a = false → contains sep v = false →
  rest = "" ∨ (∃ post, rest = String sep post) →
  split sep (a +:+ String sep (v +:+ rest)) !! 1%nat = Some v.
Proof.
  intros Ha Hv Hrest. rewrite (split_app _ _ _ Ha). cbn [lookup list_lookup].
  destruct Hrest as [->|[post ->]].
  - by rewrite append_empty_r, (split_no_sep _ _ Hv).
  - by rewrite (split_app _ _ _ Hv).
Qed.

Lemma get_version_skip (before lines : list string) :
  Forall (λ l, String.prefix "__version__" l = false) before →
  get_version (before ++ lines) = get_version lines.
Proof.
  induction 1 as [|l before Hl _ IH]; [done|]. cbn [app get_version].
  by rewrite Hl.
Qed.

(** X20. [RuntimeError] is raised exactly when no line starts with
    "__version__"; the empty file is one such case. *)
Theorem get_version_without_version_line (lines : list string) :
  get_version lines
  = inl (Raise (OtherException "RuntimeError") "Unable to find version string.")
  ↔ Forall (λ l, String.prefix "__version__" l = false) lines.
Proof.
  induction lines as [|l lines IH]; cbn [get_version].
  - split; [constructor|done].
  - destruct (String.prefix "__version__" l) eqn:Hl.
    + split.
      * destruct (split _ l !! 1%nat); discriminate.
      * intros Hall. apply Forall_cons_1 in Hall as [Hl' _]. congruence.
    + rewrite IH. split; [by constructor|]. by intros [_ ?]%Forall_cons_1.
Qed.

(** X21. The version is the text between the first double quote of the first
    line that starts with "__version__" and the next double quote, or
    the end of the line when there is none. Single quotes on that line,
    and all later lines, are of no account. *)
Theorem get_version_double_quoted
    (before after : list string) (mid version rest : string) :
  Forall (λ l, String.prefix "__version__" l = false) before →
  contains double_quote mid = false →
  contains double_quote version = false →
  rest = "" ∨ (∃ post, rest = String double_quote post) →
  get_version
    (before
     ++ ("__version__" +:+ mid +:+ String double_quote (version +:+ rest)) :: after)
  = inr version.
Proof.
  intros Hbefore Hmid Hv Hrest. rewrite (get_version_skip _ _ Hbefore).
  cbn [get_version].
  rewrite prefix_append.
  rewrite contains_app, contains_app. cbn [contains].
  rewrite Ascii.eqb_refl, orb_true_r. cbn [orb].
  rewrite (append_assoc "__version__" mid).
  rewrite split_second; [done| |done|done].
  rewrite contains_app, Hmid. reflexivity.
Qed.

(** X22. On a line without any double quote the single quote delimits the
    version. *)
Theorem get_version_single_quoted
    (before after : list string) (mid version rest : string) :
  Forall (λ l, String.prefix "__version__" l = false) before →
  contains double_quote mid = false →
  contains double_quote version = false →
  contains double_quote rest = false →
  contains "'" mid = false →
  contains "'" version = false →
  rest = "" ∨ (∃ post, rest = String "'" post) →
  get_version
    (before ++ ("__version__" +:+ mid +:+ String "'" (version +:+ rest)) :: after)
  = inr version.
Proof.
  intros Hbefore Hdm Hdv Hdr Hmid Hv Hrest. rewrite (get_version_skip _ _ Hbefore).
  cbn [get_version].
  rewrite prefix_append.
  rewrite contains_app, contains_app. cbn [contains].
  rewrite contains_app, Hdm, Hdv, Hdr. cbn [orb].
  replace (contains double_quote "__version__") with false by reflexivity.
  replace (Ascii.eqb "'" double_quote) with false by reflexivity. cbn [orb].
  rewrite (append_assoc "__version__" mid).
  rewrite split_second; [done| |done|done].
  rewrite contains_app, Hmid. reflexivity.
Qed.

(** X23. A first "__version__" line without any quote raises [IndexError],
    not [RuntimeError], and a well-formed line further down is never
    reached. *)
Theorem get_version_unquoted (before after : list string) (line : string) :
  Forall (λ l, String.prefix "__version__" l = false) before →
  String.prefix "__version__" line = true →
  contains double_quote line = false →
  contains "'" line = false →
  get_version (before ++ line :: after)
  = inl (Raise (OtherException "IndexError") "list index out of range").
Proof.
  intros Hbefore Hline Hd Hs. rewrite (get_version_skip _ _ Hbefore).
  cbn [get_version]. by rewrite Hline, Hd, (split_no_sep _ _ Hs).
Qed.

(** ** Scenarios *)

(** Scenario A: HTTPS answers 200. *)
Example scenario_A :
  (check_for_vdp scripted urllib_urlparse "example.gov" (init [inr found])).1
  = inr ("https://example.gov/vulnerability-disclosure-policy", false, true, "abc123").
Proof. reflexivity. Qed.

(** Scenario B: TLS error, then a refused connection, then 404 over HTTP. *)
Example scenario_B :
  (check_for_vdp scripted urllib_urlparse "nocert.gov"
     (init [inl tls_error; inl refused; inr not_found])).1
  = inr ("http://nocert.gov/vulnerability-disclosure-policy", false, false, "").
Proof. reflexivity. Qed.

(** Scenario C: nothing answers. *)
Example scenario_C :
  check_for_vdp scripted urllib_urlparse "unreachable.gov" (init [inl refused; inl timed_out])
  = (inr ("", false, false, ""),
     MkWorld [] ∅ []
       [Log WARNING "Falling back to HTTP for 'unreachable.gov'";
        Log WARNING "Unable to retrieve hash for 'unreachable.gov'";
        Log DEBUG "Caught ReadTimeout";
        Log DEBUG "read timed out"]
       [Fetched "https://unreachable.gov/vulnerability-disclosure-policy" true
                (inl refused);
        Fetched "http://unreachable.gov/vulnerability-disclosure-policy" true
                (inl timed_out)]).
Proof. reflexivity. Qed.

(** Scenario D: two domains of one agency, one of them with a VDP. *)
Example scenario_D :
  let w := (for_each add_domain_result
              [DomainResult.Make "a.gov" "ACME" "ACME" "sec@a.gov"
                 "https://a.gov/vulnerability-disclosure-policy" false true "abc123";
               DomainResult.Make "b.gov" "ACME" "ACME" "(blank)" "" false false ""]
              (init ())).2 in
  counter w "ACME" "Total Domains" = 2
  ∧ counter w "ACME" "Domains with Security Contact Listed" = 1
  ∧ counter w "ACME" "Domains with Organization Listed" = 2
  ∧ counter w "ACME" "Domains with Matching Organization and Agency" = 2
  ∧ counter w "ACME" "Domains with Published VDP" = 1.
Proof. repeat split. Qed.

(** One row of the input CSV through [process_domain]: the check and the
    bookkeeping together. *)
Example scenario_process_domain :
  let row : gmap string string :=
    {[ "Domain Name" := "example.gov"; "Agency" := "ACME";
       "Organization" := "ACME"; "Security Contact Email" := "(blank)" ]} in
  let run := process_domain scripted urllib_urlparse row (init [inr found]) in
  run.1 = inr ()
  ∧ domain_results run.2
    = [[("Domain", PyStr "example.gov");
        ("Agency", PyStr "ACME");
        ("Organization", PyStr "ACME");
        ("Security Contact Email", PyStr "(blank)");
        ("Visited URL", PyStr "https://example.gov/vulnerability-disclosure-policy");
        ("Was it Redirected", PyBool false);
        ("VDP is Published", PyBool true);
        ("VDP Hash", PyStr "abc123")]]
  ∧ counter run.2 "ACME" "Total Domains" = 1
  ∧ counter run.2 "ACME" "Domains with Security Contact Listed" = 0
  ∧ counter run.2 "ACME" "Domains with Published VDP" = 1.
Proof. repeat split. Qed.

(** A domain name with a query mark and a hash sign: [urlparse] cuts the
    host there, and the path ends up as the fragment of the URL fetched. *)
Example scenario_split_netloc :
  fetches (check_for_vdp scripted urllib_urlparse "a.gov?#" (init answering)).2
  = [Fetched "https://a.gov#/vulnerability-disclosure-policy" true (inr found)].
Proof. reflexivity. Qed.

(** A domain name with an unmatched bracket: [urlparse] raises, and so
    does [check_for_vdp], the hasher untouched. *)
Example scenario_unmatched_bracket :
  check_for_vdp scripted urllib_urlparse "[" (init answering)
  = (inl (Raise (OtherException "ValueError") "Invalid IPv6 URL"), init answering).
Proof. reflexivity. Qed.

(** ** The theorems at concrete inputs *)

(** C1 as the claim has it fails for the domain name "[": [urlparse]
    raises [ValueError] ahead of the first [try], and [check_for_vdp]
    passes it on to its caller. *)
Lemma check_for_vdp_never_raises_counterexample :
  ¬ (∀ (domain : string) (w : World (list (exn + UrlResult.t))),
       ∃ (o : CheckOutcome) (w' : World (list (exn + UrlResult.t))),
         check_for_vdp scripted urllib_urlparse domain w = (inr o, w')).
Proof.
  intros Hclaim. destruct (Hclaim "[" (init answering)) as (o & w' & Hrun).
  discriminate Hrun.
Qed.

(** C1 at unreachable.gov, where nothing answers. *)
Lemma check_for_vdp_returns_once_parsed_witness :
  ∃ (o : CheckOutcome) (w' : World (list (exn + UrlResult.t))) (tr : list Fetch),
    check_for_vdp scripted urllib_urlparse "unreachable.gov"
      (init [inl refused; inl timed_out]) = (inr o, w')
    ∧ fetches w' = [] ++ tr
    ∧ (Forall (λ f, failed f = true) tr → o = ("", false, false, "")).
Proof.
  apply (check_for_vdp_returns_once_parsed _ scripted urllib_urlparse
           "unreachable.gov" (init [inl refused; inl timed_out])
           (https_url "unreachable.gov")).
  reflexivity.
Defined.

(** C2 at nocert.gov: the certificate is rejected, the unverified call
    answers 200. *)
Lemma tls_fallback_witness :
  ∃ (w' : World (list (exn + UrlResult.t))) (tr : list Fetch),
    check_for_vdp scripted urllib_urlparse "nocert.gov" (init [inl tls_error; inr found])
    = (inr (outcome_of found), w')
    ∧ fetches w' = [] ++ tr
    ∧ tr = [Fetched "https://nocert.gov/vulnerability-disclosure-policy" true
                    (inl tls_error);
            Fetched "https://nocert.gov/vulnerability-disclosure-policy" false
                    (inr found)]
    ∧ (ParseResult.scheme (https_url "nocert.gov") = "https" →
       Forall (λ f, fetch_url f
                    ≠ "http://nocert.gov/vulnerability-disclosure-policy") tr).
Proof.
  apply (tls_fallback_returns_unverified_result _ scripted urllib_urlparse
           "nocert.gov" (init [inl tls_error; inr found]) (https_url "nocert.gov")
           tls_error [inr found] [] found).
  - reflexivity.
  - reflexivity.
  - reflexivity.
  - reflexivity.
Defined.

(** C3 at nocert.gov: the connection is refused, HTTP answers 404. *)
Lemma connection_failure_witness :
  ∃ w' : World (list (exn + UrlResult.t)),
    check_for_vdp scripted urllib_urlparse "nocert.gov" (init [inl refused; inr not_found])
    = (inr ("http://nocert.gov/vulnerability-disclosure-policy", false, false, ""), w')
    ∧ fetches w'
      = [Fetched "https://nocert.gov/vulnerability-disclosure-policy" true
                 (inl refused);
         Fetched "http://nocert.gov/vulnerability-disclosure-policy" true
                 (inr not_found)].
Proof.
  apply (connection_failure_goes_to_http _ scripted urllib_urlparse "nocert.gov"
           (init [inl refused; inr not_found]) (https_url "nocert.gov")
           refused [inr not_found] [] (inr not_found)).
  - reflexivity.
  - reflexivity.
  - reflexivity.
  - reflexivity.
  - reflexivity.
Defined.

(** C4 at nocert.gov: the 404 of the HTTP call decides the outcome. *)
Lemma status_mapping_witness :
  ("http://nocert.gov/vulnerability-disclosure-policy", false, false, "")
  = if Z.eqb (UrlResult.status not_found) 200
    then (UrlResult.visited_url not_found, UrlResult.is_redirect not_found, true,
          UrlResult.hash not_found)
    else (UrlResult.visited_url not_found, UrlResult.is_redirect not_found, false, "").
Proof.
  apply (status_mapping _ scripted urllib_urlparse "nocert.gov"
           (init [inl refused; inr not_found])
           (check_for_vdp scripted urllib_urlparse "nocert.gov"
              (init [inl refused; inr not_found])).2
           _
           [Fetched "https://nocert.gov/vulnerability-disclosure-policy" true
                    (inl refused);
            Fetched "http://nocert.gov/vulnerability-disclosure-policy" true
                    (inr not_found)]
           (Fetched "http://nocert.gov/vulnerability-disclosure-policy" true
                    (inr not_found))
           not_found).
  - reflexivity.
  - reflexivity.
  - apply list_elem_of_further, list_elem_of_here.
  - reflexivity.
Defined.

(** C5 at example.gov. *)
Lemma outcome_invariant_witness :
  ("abc123" ≠ "" → true = true)
  ∧ (true = true →
     ∃ f r, f ∈ [Fetched "https://example.gov/vulnerability-disclosure-policy" true
                         (inr found)]
            ∧ fetch_response f = inr r
            ∧ UrlResult.status r = 200
            ∧ "https://example.gov/vulnerability-disclosure-policy"
              = UrlResult.visited_url r)
  ∧ ((∀ f r, f ∈ [Fetched "https://example.gov/vulnerability-disclosure-policy" true
                          (inr found)] →
             fetch_response f = inr r → UrlResult.visited_url r ≠ "") →
     true = true → "https://example.gov/vulnerability-disclosure-policy" ≠ "").
Proof.
  apply (outcome_invariant _ scripted urllib_urlparse "example.gov" (init [inr found])
           (check_for_vdp scripted urllib_urlparse "example.gov" (init [inr found])).2
           [Fetched "https://example.gov/vulnerability-disclosure-policy" true
                    (inr found)]
           "https://example.gov/vulnerability-disclosure-policy" false true "abc123").
  - reflexivity.
  - reflexivity.
Defined.

(** C5 as the claim has it fails for a hasher that reports an empty
    visited URL with status 200. *)
Lemma outcome_invariant_counterexample :
  ¬ (∀ (url : string) (redirect present : bool) (h : string)
       (w' : World (list (exn + UrlResult.t))),
       check_for_vdp scripted urllib_urlparse "example.gov"
         (init [inr (UrlResult.Make 200 "" false "abc123")])
       = (inr (url, redirect, present, h), w') →
       (h ≠ "" → present = true) ∧ (present = true → url ≠ "")).
Proof.
  intros Hclaim.
  destruct (Hclaim "" false true "abc123" _ eq_refl) as [_ Hurl].
  by apply Hurl.
Qed.

(** C8 as the claim has it fails when a fallback precedes the failure:
    the refused connection logs its own warning before the time-out logs
    the failure. *)
Lemma exhausted_chain_counterexample :
  ¬ (∀ (o : CheckOutcome) (w' : World (list (exn + UrlResult.t))),
       check_for_vdp scripted urllib_urlparse "unreachable.gov"
         (init [inl refused; inl timed_out; inl malformed]) = (inr o, w') →
       Forall (λ f, failed f = true) (fetches w') →
       o = ("", false, false, "")
       ∧ length (List.filter is_warning (logged w')) = 1%nat).
Proof.
  intros Hclaim.
  destruct (Hclaim _ _ eq_refl) as [_ Hcount].
  - repeat constructor.
  - discriminate Hcount.
Qed.

(** C8 at unreachable.gov: two calls, two warnings, one of them the
    failure warning. *)
Lemma exhausted_chain_logs_failure_once_witness :
  ∃ (o : CheckOutcome) (w' : World (list (exn + UrlResult.t)))
    (tr : list Fetch) (lg : list LogRecord),
    check_for_vdp scripted urllib_urlparse "unreachable.gov"
      (init [inl refused; inl timed_out]) = (inr o, w')
    ∧ fetches w' = [] ++ tr
    ∧ logged w' = [] ++ lg
    ∧ (1 ≤ length tr ≤ 3)%nat
    ∧ (Forall (λ f, failed f = true) tr →
       o = ("", false, false, "")
       ∧ length (List.filter (is_failure_warning "unreachable.gov") lg) = 1%nat
       ∧ length (List.filter is_warning lg) = length tr).
Proof.
  apply (exhausted_chain_logs_failure_once _ scripted urllib_urlparse
           "unreachable.gov" (init [inl refused; inl timed_out])
           (https_url "unreachable.gov")).
  reflexivity.
Defined.

(** C6 on a fresh scanner. *)
Lemma add_domain_result_counters_witness :
  ∃ (w' : World ()) (info : gmap string Z),
    add_domain_result
      (DomainResult.Make "a.gov" "ACME" "acme" "(blank)"
         "https://a.gov/vulnerability-disclosure-policy" false true "abc123")
      (init ()) = (inr (), w')
    ∧ agency_results w' !! "ACME" = Some info
    ∧ info !! "Total Domains" = Some 1
    ∧ info !! "Domains with Security Contact Listed" = Some 0
    ∧ info !! "Domains with Organization Listed" = Some 1
    ∧ info !! "Domains with Matching Organization and Agency" = Some 0
    ∧ info !! "Domains with Published VDP" = Some 1
    ∧ (∀ key, key ∉ tail agency_csv_header →
              info !! key = tally (init ()) "ACME" !! key).
Proof.
  apply (add_domain_result_counters ()
           (init ())
           (DomainResult.Make "a.gov" "ACME" "acme" "(blank)"
              "https://a.gov/vulnerability-disclosure-policy" false true "abc123")).
  apply init_wf.
Defined.

(** C9 on a fresh scanner. *)
Lemma add_domain_result_frame_witness :
  ∃ w' : World (),
    add_domain_result
      (DomainResult.Make "b.gov" "ACME" "ACME" "sec@b.gov" "" false false "")
      (init ()) = (inr (), w')
    ∧ domain_results w'
      = [[("Domain", PyStr "b.gov");
          ("Agency", PyStr "ACME");
          ("Organization", PyStr "ACME");
          ("Security Contact Email", PyStr "sec@b.gov");
          ("Visited URL", PyStr "");
          ("Was it Redirected", PyBool false);
          ("VDP is Published", PyBool false);
          ("VDP Hash", PyStr "")]]
    ∧ (∀ agency, agency ≠ "ACME" →
                 agency_results w' !! agency = agency_results (init ()) !! agency)
    ∧ (∀ agency, is_Some (agency_results (init ()) !! agency) →
                 is_Some (agency_results w' !! agency)).
Proof.
  apply (add_domain_result_frame ()
           (init ())
           (DomainResult.Make "b.gov" "ACME" "ACME" "sec@b.gov" "" false false "")).
  apply init_wf.
Defined.

(** ** The further facts at concrete inputs *)

Ltac rows_have_columns :=
  repeat first [ apply Forall_cons_2 | apply Forall_nil_2 | split
               | (eexists; reflexivity) ].

(** X1 at nocert.gov, all three calls made. *)
Lemma check_for_vdp_calls_witness :
  ∃ tr : list Fetch,
    fetches (check_for_vdp scripted urllib_urlparse "nocert.gov"
               (init [inl tls_error; inl refused; inr not_found])).2
    = [] ++ tr
    ∧ ((λ f, (fetch_url f, fetch_verify f)) <$> tr)
      ∈ [ [("https://nocert.gov/vulnerability-disclosure-policy", true)];
          [("https://nocert.gov/vulnerability-disclosure-policy", true);
           ("https://nocert.gov/vulnerability-disclosure-policy", false)];
          [("https://nocert.gov/vulnerability-disclosure-policy", true);
           ("http://nocert.gov/vulnerability-disclosure-policy", true)];
          [("https://nocert.gov/vulnerability-disclosure-policy", true);
           ("https://nocert.gov/vulnerability-disclosure-policy", false);
           ("http://nocert.gov/vulnerability-disclosure-policy", true)] ].
Proof.
  apply (check_for_vdp_calls _ scripted urllib_urlparse "nocert.gov"
           (init [inl tls_error; inl refused; inr not_found])
           (https_url "nocert.gov")).
  reflexivity.
Defined.

(** X7 at nocert.gov: both fallbacks are announced, and the time-out of
    the HTTP call is what the failure records describe. *)
Lemma check_for_vdp_log_witness :
  ∃ (first : Fetch) (later : list Fetch),
    fetches (check_for_vdp scripted urllib_urlparse "nocert.gov"
               (init [inl tls_error; inl refused; inl timed_out])).2
    = [] ++ first :: later
    ∧ logged (check_for_vdp scripted urllib_urlparse "nocert.gov"
                (init [inl tls_error; inl refused; inl timed_out])).2
      = [] ++ ((λ f, if fetch_verify f
                     then Log WARNING "Falling back to HTTP for 'nocert.gov'"
                     else Log WARNING
                            "Falling back to HTTPS without TLS verification for 'nocert.gov'")
                 <$> later)
           ++ match fetch_response (List.last later first) with
              | inl e =>
                  [Log WARNING "Unable to retrieve hash for 'nocert.gov'";
                   Log DEBUG ("Caught " +:+ class_name (exn_type e));
                   Log DEBUG (exn_str e)]
              | inr _ => []
              end.
Proof.
  apply (check_for_vdp_log _ scripted urllib_urlparse "nocert.gov"
           (init [inl tls_error; inl refused; inl timed_out])
           (https_url "nocert.gov")).
  reflexivity.
Defined.

(** X4 at nocert.gov: the unverified call meets a TLS error of its own,
    HTTP answers 404. *)
Lemma unverified_failure_witness :
  ∃ w' : World (list (exn + UrlResult.t)),
    check_for_vdp scripted urllib_urlparse "nocert.gov"
      (init [inl tls_error; inl tls_error; inr not_found])
    = (inr ("http://nocert.gov/vulnerability-disclosure-policy", false, false, ""), w')
    ∧ fetches w'
      = [Fetched "https://nocert.gov/vulnerability-disclosure-policy" true
                 (inl tls_error);
         Fetched "https://nocert.gov/vulnerability-disclosure-policy" false
                 (inl tls_error);
         Fetched "http://nocert.gov/vulnerability-disclosure-policy" true
                 (inr not_found)].
Proof.
  apply (unverified_failure_goes_to_http _ scripted urllib_urlparse "nocert.gov"
           (init [inl tls_error; inl tls_error; inr not_found])
           (https_url "nocert.gov") tls_error tls_error [inl tls_error; inr not_found] [inr not_found] []
           (inr not_found)); reflexivity.
Defined.

(** X5 at example.gov: the first call fails on a malformed response. *)
Lemma other_failure_witness :
  ∃ w' : World (list (exn + UrlResult.t)),
    check_for_vdp scripted urllib_urlparse "example.gov" (init [inl malformed; inr found])
    = (inr ("", false, false, ""), w')
    ∧ fetches w'
      = [Fetched "https://example.gov/vulnerability-disclosure-policy" true
                 (inl malformed)]
    ∧ logged w'
      = [Log WARNING "Unable to retrieve hash for 'example.gov'";
         Log DEBUG "Caught ValueError";
         Log DEBUG "malformed response"].
Proof.
  apply (other_failure_is_terminal _ scripted urllib_urlparse "example.gov"
           (init [inl malformed; inr found]) (https_url "example.gov")
           malformed [inr found]); reflexivity.
Defined.

(** X6 at nocert.gov. *)
Lemma other_failure_after_tls_error_witness :
  ∃ w' : World (list (exn + UrlResult.t)),
    check_for_vdp scripted urllib_urlparse "nocert.gov" (init [inl tls_error; inl malformed; inr found])
    = (inr ("", false, false, ""), w')
    ∧ fetches w'
      = [Fetched "https://nocert.gov/vulnerability-disclosure-policy" true
                 (inl tls_error);
         Fetched "https://nocert.gov/vulnerability-disclosure-policy" false
                 (inl malformed)]
    ∧ logged w'
      = [Log WARNING "Falling back to HTTPS without TLS verification for 'nocert.gov'";
         Log WARNING "Unable to retrieve hash for 'nocert.gov'";
         Log DEBUG "Caught ValueError";
         Log DEBUG "malformed response"].
Proof.
  apply (other_failure_after_tls_error_is_terminal _ scripted urllib_urlparse
           "nocert.gov" (init [inl tls_error; inl malformed; inr found])
           (https_url "nocert.gov") tls_error malformed [inl malformed; inr found] [inr found]); reflexivity.
Defined.

(** X12 on two records of one agency, in both orders. *)
Lemma tallies_ignore_order_witness :
  agency_results (for_each add_domain_result [record_a; record_b] (init ())).2
  = agency_results (for_each add_domain_result [record_b; record_a] (init ())).2.
Proof.
  apply (tallies_ignore_order () () [record_a; record_b] [record_b; record_a]).
  apply perm_swap.
Defined.

(** X13 on a row without a name. *)
Lemma process_domain_without_domain_name_witness :
  process_domain scripted urllib_urlparse row_without_name (init answering)
  = (inl (Raise (OtherException "KeyError") "'Domain Name'"), init [inr found]).
Proof.
  apply (process_domain_without_domain_name _ scripted urllib_urlparse row_without_name
           (init answering)).
  reflexivity.
Defined.

(** X25 on a row whose domain name is "[". *)
Lemma process_domain_rejected_domain_witness :
  process_domain scripted urllib_urlparse row_unparsable (init answering)
  = (inl (Raise (OtherException "ValueError") "Invalid IPv6 URL"), init answering).
Proof.
  apply (process_domain_rejected_domain _ scripted urllib_urlparse row_unparsable
           (init answering) "[").
  - reflexivity.
  - reflexivity.
Defined.

(** X14 on a row without an agency: c.gov is fetched and dropped. *)
Lemma process_domain_missing_column_witness :
  ∃ (key : string) (w' : World (list (exn + UrlResult.t))),
    process_domain scripted urllib_urlparse row_without_agency (init answering)
    = (inl (Raise (OtherException "KeyError") ("'" +:+ key +:+ "'")), w')
    ∧ row_without_agency !! key = None
    ∧ w' = (check_for_vdp scripted urllib_urlparse "c.gov" (init answering)).2
    ∧ agency_results w' = agency_results (init answering)
    ∧ domain_results w' = domain_results (init answering)
    ∧ (length (fetches (init answering)) < length (fetches w'))%nat.
Proof.
  apply (process_domain_missing_column _ scripted urllib_urlparse row_without_agency
           (init answering) "c.gov").
  - reflexivity.
  - reflexivity.
  - left. reflexivity.
Defined.

(** X15 on the row of a.gov. *)
Lemma process_domain_records_the_check_witness :
  ∃ (url : string) (redirect present : bool) (h : string)
    (w' : World (list (exn + UrlResult.t))),
    (check_for_vdp scripted urllib_urlparse "a.gov" (init answering)).1
    = inr (url, redirect, present, h)
    ∧ process_domain scripted urllib_urlparse row_a (init answering) = (inr (), w')
    ∧ domain_results w'
      = domain_results (init answering)
        ++ [[("Domain", PyStr "a.gov");
             ("Agency", PyStr "ACME");
             ("Organization", PyStr "ACME");
             ("Security Contact Email", PyStr "sec@a.gov");
             ("Visited URL", PyStr url);
             ("Was it Redirected", PyBool redirect);
             ("VDP is Published", PyBool present);
             ("VDP Hash", PyStr h)]]
    ∧ counter w' "ACME" "Total Domains"
      = counter (init answering) "ACME" "Total Domains" + 1
    ∧ counter w' "ACME" "Domains with Published VDP"
      = counter (init answering) "ACME" "Domains with Published VDP"
        + (if present then 1 else 0)
    ∧ fetches w' = fetches (check_for_vdp scripted urllib_urlparse "a.gov" (init answering)).2
    ∧ logged w' = logged (check_for_vdp scripted urllib_urlparse "a.gov" (init answering)).2
    ∧ tallies_wf w'.
Proof.
  apply (process_domain_records_the_check _ scripted urllib_urlparse row_a (init answering)
           "a.gov" "ACME" "ACME" "sec@a.gov").
  - reflexivity.
  - reflexivity.
  - reflexivity.
  - reflexivity.
  - reflexivity.
  - apply init_wf.
Defined.

(** X16 on a file whose second row has no name. *)
Lemma main_loop_without_domain_name_witness :
  main_loop scripted urllib_urlparse [row_a; row_without_name] (init answering)
  = (inl (Raise (OtherException "KeyError") "'Domain Name'"), init [inr found]).
Proof.
  apply (main_loop_without_domain_name _ scripted urllib_urlparse [row_a; row_without_name]
           (init answering)).
  apply Exists_cons_tl, Exists_cons_hd. reflexivity.
Defined.

(** X17 on a file that lists b.gov before a.gov. *)
Lemma main_loop_processes_in_name_order_witness :
  ∃ (w' : World (list (exn + UrlResult.t))) (ordered : list (gmap string string))
    (results : list DomainResult.t),
    main_loop scripted urllib_urlparse [row_b; row_a] (init answering) = (inr (), w')
    ∧ ordered ≡ₚ [row_b; row_a]
    ∧ Forall2 from_row ordered results
    ∧ Sorted (λ a b, String.leb a b = true) (DomainResult.domain <$> results)
    ∧ domain_results w'
      = (λ r, zip domain_csv_header (DomainResult.fields r)) <$> results.
Proof.
  apply (main_loop_processes_in_name_order _ scripted urllib_urlparse answering
           [row_b; row_a]).
  - rows_have_columns.
  - repeat constructor.
Defined.

(** X18 on a file in order. *)
Lemma main_loop_keeps_sorted_file_order_witness :
  ∃ (w' : World (list (exn + UrlResult.t))) (results : list DomainResult.t),
    main_loop scripted urllib_urlparse [row_a; row_b] (init answering) = (inr (), w')
    ∧ Forall2 from_row [row_a; row_b] results
    ∧ domain_results w'
      = (λ r, zip domain_csv_header (DomainResult.fields r)) <$> results.
Proof.
  apply (main_loop_keeps_sorted_file_order _ scripted urllib_urlparse answering
           [row_a; row_b] ["a.gov"; "b.gov"]).
  - rows_have_columns.
  - repeat constructor.
  - repeat constructor.
  - repeat constructor.
Defined.

(** X19 on the same file, for the agency ACME. *)
Lemma main_loop_tallies_from_file_witness :
  ∃ w' : World (list (exn + UrlResult.t)),
    main_loop scripted urllib_urlparse [row_b; row_a] (init answering) = (inr (), w')
    ∧ counter w' "ACME" "Total Domains" = 2
    ∧ counter w' "ACME" "Domains with Security Contact Listed" = 1
    ∧ counter w' "ACME" "Domains with Organization Listed" = 1
    ∧ counter w' "ACME" "Domains with Matching Organization and Agency" = 1.
Proof.
  apply (main_loop_tallies_from_file _ scripted urllib_urlparse answering
           [row_b; row_a] "ACME").
  - rows_have_columns.
  - repeat constructor.
Defined.

(** X21: the double quotes win over the single quotes before them, and
    the line further down is not read. *)
Lemma get_version_double_quoted_witness :
  get_version
    (["# the version"]
     ++ ("__version__" +:+ " = '0.9'  # "
         +:+ String double_quote ("1.2.3" +:+ String double_quote " is next"))
        :: ["__version__ = '2.0'"])
  = inr "1.2.3".
Proof.
  apply (get_version_double_quoted ["# the version"] ["__version__ = '2.0'"]
           " = '0.9'  # " "1.2.3" (String double_quote " is next")).
  - repeat constructor.
  - reflexivity.
  - reflexivity.
  - right. eexists. reflexivity.
Defined.

(** X22: single quotes, the closing one missing. *)
Lemma get_version_single_quoted_witness :
  get_version ([] ++ ("__version__" +:+ " = " +:+ String "'" ("1.2.3" +:+ "")) :: [])
  = inr "1.2.3".
Proof.
  apply (get_version_single_quoted [] [] " = " "1.2.3" "").
  - constructor.
  - reflexivity.
  - reflexivity.
  - reflexivity.
  - reflexivity.
  - reflexivity.
  - left. reflexivity.
Defined.

(** X23: a bare number, with a well-formed line below it. *)
Lemma get_version_unquoted_witness :
  get_version (["# the version"] ++ "__version__ = 1.2.3" :: ["__version__ = '2.0'"])
  = inl (Raise (OtherException "IndexError") "list index out of range").
Proof.
  apply (get_version_unquoted ["# the version"] ["__version__ = '2.0'"]
           "__version__ = 1.2.3").
  - repeat constructor.
  - reflexivity.
  - reflexivity.
  - reflexivity.
Defined.

(** X24 on a file that lists b.gov before a.gov. *)
Lemma main_loop_progress_log_witness :
  ∃ names : list string,
    names ≡ₚ (λ d, column d "Domain Name") <$> [row_b; row_a]
    ∧ Sorted (λ a b, String.leb a b = true) names
    ∧ List.filter is_info
        (logged (main_loop scripted urllib_urlparse [row_b; row_a] (init answering)).2)
      = imap (λ i name,
                Log INFO ("Processing '" +:+ name +:+ "' (" +:+ pretty (S i) +:+ "/"
                          +:+ pretty (length [row_b; row_a]) +:+ ")..."))
             names.
Proof.
  apply (main_loop_progress_log _ scripted urllib_urlparse answering [row_b; row_a]).
  - rows_have_columns.
  - repeat constructor.
Defined.
